(** * tidyBot: a shallow embedding of [tidyBot.py] and its specification

    The development follows the source file top-down:
    - [Str], [Pathlib]  the string and [pathlib] operations the script uses;
    - [Py]       the dynamically typed values the script manipulates
                 (what [json.load] returns, plus [pathlib.Path] objects),
                 the exceptions and the outcome of a call;
    - [Json]     the chunked encoder behind [json.dump(obj, f, indent=4)];
    - [Os]       the file system, a finite map from paths to nodes, and the
                 calls of [os] and [shutil] on it;
    - [TidyBot]  the state-and-exception monad, then
                 [create_default_config], [load_config],
                 [get_available_name] and [sorter], in source order;
    - [Spec]     the vocabulary of the specification;
    - [Scenario] concrete platforms and file systems;
    - [Main]     the [__main__] block;
    - [Cases]    further concrete platforms and file systems;
    - the facts proved about them. *)

From stdpp Require Import gmap strings list fin_maps.
From Stdlib Require Import Ascii String ZArith DecimalString DecimalNat.

Open Scope string_scope.
Open Scope list_scope.

Set Warnings "-register-all".

(* ===================================================================== *)
(** ** Strings *)
(* ===================================================================== *)

Module Str.

(** A string of the model is the sequence of the bytes of a Python string
    in UTF-8.  Searching for a dot or a slash, comparing and concatenating
    are the same on the bytes as on the characters. *)

(** The lowercasing of ASCII text: the letters [A]..[Z] are mapped to
    [a]..[z], every other byte is kept.  [str.lower()] itself knows every
    cased letter of Unicode and is taken from the platform ([str_lower]
    below); on ASCII text it is this function, which the concrete
    platforms use. *)
Definition lower_ascii (c : ascii) : ascii :=
  let n := nat_of_ascii c in
  if (65 <=? n)%nat && (n <=? 90)%nat then ascii_of_nat (n + 32) else c.

Fixpoint lower (s : string) : string :=
  match s with
  | EmptyString => EmptyString
  | String c r => String (lower_ascii c) (lower r)
  end.

(** [str(n)] for a non-negative integer. *)
Definition of_nat (n : nat) : string :=
  NilEmpty.string_of_uint (Nat.to_uint n).

(** [str(z)] for an integer. *)
Definition of_Z (z : Z) : string :=
  match z with
  | Z0 => "0"
  | Zpos p => of_nat (Pos.to_nat p)
  | Zneg p => "-" +:+ of_nat (Pos.to_nat p)
  end.

(** [needle in haystack] on strings: substring search. *)
Fixpoint is_prefix (p s : string) : bool :=
  match p, s with
  | EmptyString, _ => true
  | String a p', String b s' => if Ascii.eqb a b then is_prefix p' s' else false
  | String _ _, EmptyString => false
  end.

Fixpoint contains (needle hay : string) : bool :=
  is_prefix needle hay ||
  match hay with
  | EmptyString => false
  | String _ r => contains needle r
  end.

(** Splits a string at its last dot: [Some (before, from_dot)] where
    [from_dot] starts with that dot, [None] when there is no dot.  This is
    [i = s.rfind('.')] together with the slices [s[:i]] and [s[i:]]. *)
Fixpoint rsplit_dot (s : string) : option (string * string) :=
  match s with
  | EmptyString => None
  | String c r =>
      match rsplit_dot r with
      | Some (a, b) => Some (String c a, b)
      | None => if Ascii.eqb c "." then Some (EmptyString, s) else None
      end
  end.

End Str.

(* ===================================================================== *)
(** ** pathlib *)
(* ===================================================================== *)

Module Pathlib.

(** A path is the list of its components below the root; every path of the
    model is absolute.  [p / name] appends [name] as one component, which
    is what [pathlib] does when [name] is a single component: not empty,
    not [.] or [..], without a slash ([simple_name] below).  Facts about
    [p / name] for a name that the script does not build itself assume
    that. *)
Abbreviation Path := (list string).

Definition div (p : Path) (name : string) : Path := p ++ [name].

Definition name (p : Path) : string := List.last p "".

Definition parent (p : Path) : Path := List.removelast p.

(** [PurePath.suffix]:
    [i = name.rfind('.'); name[i:] if 0 < i < len(name) - 1 else ''] *)
Definition suffix_of_name (n : string) : string :=
  match Str.rsplit_dot n with
  | Some (a, b) =>
      if (0 <? String.length a)%nat && (1 <? String.length b)%nat then b else ""
  | None => ""
  end.

(** [PurePath.stem]:
    [i = name.rfind('.'); name[:i] if 0 < i < len(name) - 1 else name] *)
Definition stem_of_name (n : string) : string :=
  match Str.rsplit_dot n with
  | Some (a, b) =>
      if (0 <? String.length a)%nat && (1 <? String.length b)%nat then a else n
  | None => n
  end.

Definition suffix (p : Path) : string := suffix_of_name (name p).
Definition stem (p : Path) : string := stem_of_name (name p).

(** [PurePath.with_suffix(s)] for a path with a name and a suffix [s] that
    starts with a dot: same parent, name [stem + s]. *)
Definition with_suffix (p : Path) (s : string) : Path :=
  div (parent p) (stem p +:+ s).

(** [str(path)] *)
Fixpoint to_str (p : Path) : string :=
  match p with
  | [] => ""
  | c :: r => "/" +:+ c +:+ to_str r
  end.

Definition str (p : Path) : string :=
  match p with [] => "/" | _ => to_str p end.

End Pathlib.

Export Pathlib.
Infix "//" := Pathlib.div (at level 40, left associativity).

(* ===================================================================== *)
(** ** Python values, exceptions and outcomes *)
(* ===================================================================== *)

Module Py.

(** The values the script handles: what [json.load] can return, and the
    [Path] object that [load_config] stores under ["downloads_path"].  A
    [dict] is an association list in insertion order with string keys.  A
    float carries only what the script can observe of it: its truth value
    and its [repr]. *)
Inductive pyval : Type :=
| VNone
| VBool (b : bool)
| VInt (z : Z)
| VFloat (nonzero : bool) (repr : string)
| VStr (s : string)
| VList (l : list pyval)
| VDict (d : list (string * pyval))
| VPath (p : Path).

(** The exceptions that can be raised; all of them derive from
    [Exception]. *)
Inductive exn : Type :=
| KeyError (k : string)
| TypeError
| AttributeError
| JSONDecodeError
| UnicodeDecodeError
| FileNotFoundError
| FileExistsError
| NotADirectoryError
| IsADirectoryError
| PermissionError
| SameFileError
| ShutilError
| RuntimeError.

Inductive outcome (A : Type) : Type :=
| Ok (a : A)
| Raise (e : exn).
Arguments Ok {A} a.
Arguments Raise {A} e.

(** [bool(v)] *)
Definition truthy (v : pyval) : bool :=
  match v with
  | VNone => false
  | VBool b => b
  | VInt z => negb (Z.eqb z 0)
  | VFloat nz _ => nz
  | VStr s => negb (String.eqb s "")
  | VList l => match l with [] => false | _ => true end
  | VDict d => match d with [] => false | _ => true end
  | VPath _ => true
  end.

(** Association lists with the update discipline of [dict]: a new key goes
    to the end, an existing key keeps its position. *)
Fixpoint assoc {A} (k : string) (d : list (string * A)) : option A :=
  match d with
  | [] => None
  | (k', v) :: r => if String.eqb k k' then Some v else assoc k r
  end.

Fixpoint assoc_set {A} (k : string) (v : A) (d : list (string * A))
  : list (string * A) :=
  match d with
  | [] => [(k, v)]
  | (k', v') :: r =>
      if String.eqb k k' then (k, v) :: r else (k', v') :: assoc_set k v r
  end.

(** [obj[key]] with a string key. *)
Definition getitem (obj : pyval) (key : string) : outcome pyval :=
  match obj with
  | VDict d => match assoc key d with
               | Some v => Ok v
               | None => Raise (KeyError key)
               end
  | _ => Raise TypeError
  end.

(** [obj[key] = v] with a string key. *)
Definition setitem (obj : pyval) (key : string) (v : pyval) : outcome pyval :=
  match obj with
  | VDict d => Ok (VDict (assoc_set key v d))
  | _ => Raise TypeError
  end.

(** [d.get(key, default)] on a dict. *)
Definition dict_get (obj : pyval) (key : string) (default : pyval)
  : outcome pyval :=
  match obj with
  | VDict d => Ok (match assoc key d with Some v => v | None => default end)
  | _ => Raise AttributeError
  end.

(** [list(obj.keys())] *)
Definition keys (obj : pyval) : outcome (list string) :=
  match obj with
  | VDict d => Ok (map fst d)
  | _ => Raise AttributeError
  end.

(** [s == v] for a string [s]. *)
Definition str_eq (s : string) (v : pyval) : bool :=
  match v with
  | VStr t => String.eqb s t
  | _ => false
  end.

(** [s in container] for a string [s]: element test on a list, key test on
    a dict, substring test on a string; the other values are not
    iterable. *)
Definition contains (container : pyval) (s : string) : outcome bool :=
  match container with
  | VList l => Ok (existsb (str_eq s) l)
  | VDict d => Ok (existsb (fun kv => String.eqb s (fst kv)) d)
  | VStr t => Ok (Str.contains s t)
  | _ => Raise TypeError
  end.

Definition is_dict (v : pyval) : bool :=
  match v with VDict _ => true | _ => false end.

End Py.

Export Py.

(* ===================================================================== *)
(** ** json.dump(obj, f, indent=4) *)
(* ===================================================================== *)

Module Json.

Definition quote : string := String (ascii_of_nat 34) EmptyString.
Definition backslash : string := String (ascii_of_nat 92) EmptyString.
Definition newline : string := String (ascii_of_nat 10) EmptyString.

Definition hex_digit (n : nat) : string :=
  String (ascii_of_nat (if (n <? 10)%nat then 48 + n else 87 + n)) EmptyString.

(** ['\\u{0:04x}'.format(n)] *)
Definition u_escape (n : N) : string :=
  let digit (k : N) := hex_digit (N.to_nat (k mod 16)%N) in
  backslash +:+ "u" +:+ digit (n / 4096)%N +:+ digit (n / 256)%N
  +:+ digit (n / 16)%N +:+ digit n.

(** The escape of the character with code point [n] that is not ASCII:
    one [\uXXXX], or a surrogate pair above the basic plane. *)
Definition escape_code_point (n : N) : string :=
  if (n <? 65536)%N then u_escape n
  else
    let v := (n - 65536)%N in
    u_escape (55296 + v / 1024)%N +:+ u_escape (56320 + v mod 1024)%N.

(** The escape of an ASCII character: the quote, the backslash and the
    control characters are escaped, the printable characters are written
    as they are. *)
Definition escape_ascii (c : ascii) : string :=
  let n := nat_of_ascii c in
  if (n =? 34)%nat then backslash +:+ quote
  else if (n =? 92)%nat then backslash +:+ backslash
  else if (n =? 10)%nat then backslash +:+ "n"
  else if (n =? 13)%nat then backslash +:+ "r"
  else if (n =? 9)%nat then backslash +:+ "t"
  else if (n =? 8)%nat then backslash +:+ "b"
  else if (n =? 12)%nat then backslash +:+ "f"
  else if (n <? 32)%nat || (n =? 127)%nat then u_escape (N.of_nat n)
  else String c EmptyString.

(** The six low bits of a continuation byte of UTF-8. *)
Definition continuation (c : ascii) : option N :=
  let n := N_of_ascii c in
  if (128 <=? n)%N && (n <? 192)%N then Some (n - 128)%N else None.

(** The body of a JSON string literal as [ensure_ascii=True] writes it.  A
    string of the model is the UTF-8 encoding of a Python string: a
    character that is not ASCII is decoded from its two, three or four
    bytes and written as the escape of its code point.  (Bytes that are
    not UTF-8 encode no Python string; [kept] leaves such a byte as it
    is.) *)
Fixpoint escape (s : string) : string :=
  match s with
  | EmptyString => EmptyString
  | String c r =>
      let n := N_of_ascii c in
      let kept (_ : unit) := String c (escape r) in
      if (n <? 128)%N then escape_ascii c +:+ escape r
      else if (n <? 192)%N then kept tt
      else if (n <? 224)%N then
        match r with
        | String c1 r1 =>
            match continuation c1 with
            | Some n1 =>
                escape_code_point ((n - 192) * 64 + n1)%N +:+ escape r1
            | None => kept tt
            end
        | _ => kept tt
        end
      else if (n <? 240)%N then
        match r with
        | String c1 (String c2 r2) =>
            match continuation c1, continuation c2 with
            | Some n1, Some n2 =>
                escape_code_point ((n - 224) * 4096 + n1 * 64 + n2)%N
                +:+ escape r2
            | _, _ => kept tt
            end
        | _ => kept tt
        end
      else if (n <? 248)%N then
        match r with
        | String c1 (String c2 (String c3 r3)) =>
            match continuation c1, continuation c2, continuation c3 with
            | Some n1, Some n2, Some n3 =>
                escape_code_point
                  ((n - 240) * 262144 + n1 * 4096 + n2 * 64 + n3)%N
                +:+ escape r3
            | _, _, _ => kept tt
            end
        | _ => kept tt
        end
      else kept tt
  end.

Definition encode_str (s : string) : string := quote +:+ escape s +:+ quote.

Fixpoint spaces (n : nat) : string :=
  match n with
  | O => EmptyString
  | S k => " " +:+ spaces k
  end.

(** ['\n' + _indent * _current_indent_level] with [_indent = 4 * ' ']. *)
Definition newline_indent (level : nat) : string :=
  newline +:+ spaces (4 * level).

(** The encoder yields chunks that [json.dump] writes to the file one by
    one.  [iterencode o level] is the text of the chunks yielded for [o]
    and whether the encoder finished; when it meets a value that is not
    serializable (a [Path] object) it raises [TypeError], and the chunks
    yielded until then have been written. *)
Fixpoint iterencode (o : pyval) (level : nat) {struct o} : string * bool :=
  match o with
  | VStr s => (encode_str s, true)
  | VNone => ("null", true)
  | VBool true => ("true", true)
  | VBool false => ("false", true)
  | VInt z => (Str.of_Z z, true)
  | VFloat _ r => (r, true)
  | VList [] => ("[]", true)
  | VList l =>
      let nl := newline_indent (S level) in
      let fix items (l : list pyval) (first : bool) : string * bool :=
        match l with
        | [] => (EmptyString, true)
        | x :: r =>
            let sep := if first then EmptyString else "," +:+ nl in
            let '(cx, okx) := iterencode x (S level) in
            if okx then
              let '(cr, okr) := items r false in (sep +:+ cx +:+ cr, okr)
            else (sep +:+ cx, false)
        end in
      let '(c, ok) := items l true in
      if ok then ("[" +:+ nl +:+ c +:+ newline_indent level +:+ "]", true)
      else ("[" +:+ nl +:+ c, false)
  | VDict [] => ("{}", true)
  | VDict d =>
      let nl := newline_indent (S level) in
      let fix items (d : list (string * pyval)) (first : bool) : string * bool :=
        match d with
        | [] => (EmptyString, true)
        | (k, x) :: r =>
            let sep := if first then EmptyString else "," +:+ nl in
            let '(cx, okx) := iterencode x (S level) in
            if okx then
              let '(cr, okr) := items r false in
              (sep +:+ encode_str k +:+ ": " +:+ cx +:+ cr, okr)
            else (sep +:+ encode_str k +:+ ": " +:+ cx, false)
        end in
      let '(c, ok) := items d true in
      if ok then ("{" +:+ nl +:+ c +:+ newline_indent level +:+ "}", true)
      else ("{" +:+ nl +:+ c, false)
  | VPath _ => (EmptyString, false)
  end.

End Json.

(* ===================================================================== *)
(** ** The file system *)
(* ===================================================================== *)

Module Os.

Inductive node : Type :=
| File (content : string)
| Dir.

(** The file system is a finite map from paths to nodes.  The root always
    exists and is a directory.  The operations below look at a path and at
    its parent only. *)
Abbreviation FS := (gmap Path node).

(** The system calls that can be refused (permissions, a read-only or full
    device, a rename across devices, a name that is too long).  [OpStat p]
    is the status query behind [p.exists()] and [p.is_file()]: the system
    refuses it when a directory on the way to [p] cannot be searched or
    when a component of [p] is too long, and the call then raises. *)
Inductive fsop : Type :=
| OpMkdir (p : Path)
| OpRead (p : Path)
| OpWrite (p : Path)
| OpRename (src dst : Path)
| OpUnlink (p : Path)
| OpStat (p : Path).

Definition lookup_node (fs : FS) (p : Path) : option node :=
  match p with
  | [] => Some Dir
  | _ => fs !! p
  end.

(** [Path.exists()], [Path.is_file()] and [Path.is_dir()]: the answers of
    status queries that the system does not refuse.  (A refused query
    raises; [sorter] makes its queries outside every [try], so the error
    leaves it.  [OpStat] names the query, for the facts that say that none
    is refused.) *)
Definition path_exists (fs : FS) (p : Path) : bool :=
  match lookup_node fs p with Some _ => true | None => false end.

(** [Path.is_file()] *)
Definition is_file (fs : FS) (p : Path) : bool :=
  match lookup_node fs p with Some (File _) => true | _ => false end.

(** [Path.is_dir()] *)
Definition is_dir (fs : FS) (p : Path) : bool :=
  match lookup_node fs p with Some Dir => true | _ => false end.

(** [os.listdir]: the entries directly below [p].  The system lists them
    in an order of its own; the model takes the enumeration order of the
    map.  Only the logs computed for concrete runs depend on that order:
    the facts about the loop are proved for a listing in any order. *)
Definition children (fs : FS) (p : Path) : list Path :=
  filter (fun q => q ≠ [] ∧ parent q = p) (map fst (map_to_list fs)).

Section Calls.

Variable deny : fsop -> bool.

(** [os.mkdir(p)] *)
Definition os_mkdir (fs : FS) (p : Path) : outcome unit * FS :=
  match lookup_node fs p with
  | Some _ => (Raise FileExistsError, fs)
  | None =>
      match lookup_node fs (parent p) with
      | None => (Raise FileNotFoundError, fs)
      | Some (File _) => (Raise NotADirectoryError, fs)
      | Some Dir =>
          if deny (OpMkdir p) then (Raise PermissionError, fs)
          else (Ok tt, <[p := Dir]> fs)
      end
  end.

(** [Path.mkdir(exist_ok=True)]: a missing parent is an error; any other
    error is ignored when the directory is there. *)
Definition mkdir_exist_ok (fs : FS) (p : Path) : outcome unit * FS :=
  match os_mkdir fs p with
  | (Ok _, fs') => (Ok tt, fs')
  | (Raise FileNotFoundError, fs') => (Raise FileNotFoundError, fs')
  | (Raise e, fs') => if is_dir fs' p then (Ok tt, fs') else (Raise e, fs')
  end.

(** [Path.mkdir(parents=True, exist_ok=True)]: on a missing parent the
    parent is created first, recursively; [fuel] bounds the recursion by
    the depth of the path. *)
Fixpoint mkdir_parents_fuel (fuel : nat) (fs : FS) (p : Path)
  : outcome unit * FS :=
  match os_mkdir fs p with
  | (Ok _, fs') => (Ok tt, fs')
  | (Raise FileNotFoundError, fs') =>
      match fuel with
      | O => (Raise FileNotFoundError, fs')
      | S n =>
          match mkdir_parents_fuel n fs' (parent p) with
          | (Ok _, fs'') => mkdir_exist_ok fs'' p
          | (Raise e, fs'') => (Raise e, fs'')
          end
      end
  | (Raise e, fs') => if is_dir fs' p then (Ok tt, fs') else (Raise e, fs')
  end.

Definition mkdir_parents (fs : FS) (p : Path) : outcome unit * FS :=
  mkdir_parents_fuel (List.length p) fs p.

(** [open(p, 'r')] followed by [f.read()]. *)
Definition read_file (fs : FS) (p : Path) : outcome string :=
  match lookup_node fs p with
  | None => Raise FileNotFoundError
  | Some Dir => Raise IsADirectoryError
  | Some (File c) => if deny (OpRead p) then Raise PermissionError else Ok c
  end.

(** [open(p, 'w')]: the file is created or truncated. *)
Definition open_w (fs : FS) (p : Path) : outcome unit * FS :=
  match lookup_node fs p with
  | Some Dir => (Raise IsADirectoryError, fs)
  | _ =>
      match lookup_node fs (parent p) with
      | None => (Raise FileNotFoundError, fs)
      | Some (File _) => (Raise NotADirectoryError, fs)
      | Some Dir =>
          if deny (OpWrite p) then (Raise PermissionError, fs)
          else (Ok tt, <[p := File ""]> fs)
      end
  end.

(** [with open(p, 'w') as f: json.dump(o, f, indent=4)]: the chunks of
    the encoder reach the file also when the encoder raises. *)
Definition write_json (fs : FS) (p : Path) (o : pyval) : outcome unit * FS :=
  match open_w fs p with
  | (Raise e, fs') => (Raise e, fs')
  | (Ok _, fs') =>
      let '(text, ok) := Json.iterencode o 0 in
      (if ok then Ok tt else Raise TypeError, <[p := File text]> fs')
  end.

(** [shutil.copy2(src, dst)]: into [dst] when it is a directory; the
    source is read and the destination is written. *)
Definition copy2 (fs : FS) (src dst : Path) : outcome unit * FS :=
  let dst := if is_dir fs dst then dst // name src else dst in
  if bool_decide (src = dst) then (Raise SameFileError, fs)
  else
    match read_file fs src with
    | Raise e => (Raise e, fs)
    | Ok c =>
        match open_w fs dst with
        | (Raise e, fs') => (Raise e, fs')
        | (Ok _, fs') => (Ok tt, <[dst := File c]> fs')
        end
    end.

(** [os.rename(src, dst)] for a regular file [src]. *)
Definition os_rename (fs : FS) (src dst : Path) : outcome unit * FS :=
  match lookup_node fs src with
  | Some (File c) =>
      match lookup_node fs dst with
      | Some Dir => (Raise IsADirectoryError, fs)
      | _ =>
          match lookup_node fs (parent dst) with
          | None => (Raise FileNotFoundError, fs)
          | Some (File _) => (Raise NotADirectoryError, fs)
          | Some Dir =>
              if deny (OpRename src dst) then (Raise PermissionError, fs)
              else (Ok tt, <[dst := File c]> (delete src fs))
          end
      end
  | _ => (Raise FileNotFoundError, fs)
  end.

(** [os.unlink(p)] *)
Definition os_unlink (fs : FS) (p : Path) : outcome unit * FS :=
  match lookup_node fs p with
  | Some (File _) =>
      if deny (OpUnlink p) then (Raise PermissionError, fs)
      else (Ok tt, delete p fs)
  | Some Dir => (Raise IsADirectoryError, fs)
  | None => (Raise FileNotFoundError, fs)
  end.

(** [shutil.move(src, dst)] for a regular file [src]: into [dst] when
    it is a directory; by [os.rename], and when that fails by copying
    and deleting the source. *)
Definition shutil_move (fs : FS) (src dst : Path) : outcome unit * FS :=
  let real_dst := if is_dir fs dst then dst // name src else dst in
  if is_dir fs dst && path_exists fs real_dst then (Raise ShutilError, fs)
  else
    match os_rename fs src real_dst with
    | (Ok _, fs') => (Ok tt, fs')
    | (Raise _, fs') =>
        match copy2 fs' src real_dst with
        | (Raise e, fs'') => (Raise e, fs'')
        | (Ok _, fs'') => os_unlink fs'' src
        end
    end.

End Calls.

End Os.

Export Os.

(* ===================================================================== *)
(** ** tidyBot.py *)
(* ===================================================================== *)

Module TidyBot.

(** What the script takes from its platform:
    - [APP_DATA_DIR], the application data directory, computed from
      [os.name] and the environment (lines 6-9);
    - [path_home], [Path.home()], the home directory of the current user,
      which is taken to be known (on Linux and macOS line 9 has asked for
      it before anything else runs);
    - [json_loads], the JSON parser applied to the text of a file;
    - [str_lower], [str.lower()], which knows every cased letter of
      Unicode;
    - [expanduser], [Path(s).expanduser()] for a stored path string [s]:
      [None] when the home directory that [s] names ([~name]) cannot be
      determined, and the call raises [RuntimeError];
    - [deny], the system calls that are refused. *)
Record env : Type := {
  APP_DATA_DIR : Path;
  path_home : Path;
  json_loads : string -> outcome pyval;
  str_lower : string -> string;
  expanduser : string -> option Path;
  deny : fsop -> bool
}.

Definition CONFIG_FILE (E : env) : Path := APP_DATA_DIR E // "config.json".

(** The records sent to the logger, one constructor per call site. *)
Inductive message : Type :=
| NoConfigFound
| ConfigCorrupted
| BackupSaved (backup_path : Path)
| BackupFailed
| NewDefaultCreated
| UnexpectedLoadError (e : exn)
| ExitingNoConfig
| DownloadsMissing (download_path : Path)
| FirstRunDetected
| DryWouldCreate (download_path : Path) (folder_name : string)
| CreatedFolder (folder_name : string)
| ConfigUpdated
| SaveError (e : exn)
| DryWouldSetInitialized
| DryWouldMove (item_name dir_name : string)
| DryWouldMoveAs (item_name dir_name final_name : string)
| Moved (item_name dir_name : string)
| MovedRenamed (item_name dir_name final_name : string)
| MoveError (item_name : string) (e : exn).

Inductive level : Type := INFO | WARNING | ERROR.

Definition level_of (m : message) : level :=
  match m with
  | ConfigCorrupted | BackupFailed => WARNING
  | UnexpectedLoadError _ | ExitingNoConfig | DownloadsMissing _
  | SaveError _ | MoveError _ _ => ERROR
  | _ => INFO
  end.

(** The state a run acts on: the file system and the log written so far
    (oldest record first).  The log file itself is not part of [fs]. *)
Record world : Type := { fs : FS; logs : list message }.

(** *** The state-and-exception monad *)

Definition M (A : Type) : Type := world -> outcome A * world.

#[global] Instance M_ret : MRet M := fun A a w => (Ok a, w).

#[global] Instance M_bind : MBind M := fun A B f m w =>
  match m w with
  | (Ok a, w') => f a w'
  | (Raise e, w') => (Raise e, w')
  end.

Definition raise {A} (e : exn) : M A := fun w => (Raise e, w).

(** [try: body except Exception as e: handler e] *)
Definition try_except {A} (body : M A) (handler : exn -> M A) : M A :=
  fun w =>
    match body w with
    | (Ok a, w') => (Ok a, w')
    | (Raise e, w') => handler e w'
    end.

Definition lift {A} (r : outcome A) : M A := fun w => (r, w).

Definition on_fs {A} (call : FS -> outcome A * FS) : M A := fun w =>
  let '(r, fs') := call (fs w) in (r, {| fs := fs'; logs := logs w |}).

Definition ask_fs {A} (query : FS -> A) : M A := fun w => (Ok (query (fs w)), w).

Definition logger (m : message) : M unit := fun w =>
  (Ok tt, {| fs := fs w; logs := logs w ++ [m] |}).

Fixpoint for_each {A} (l : list A) (body : A -> M unit) : M unit :=
  match l with
  | [] => mret tt
  | x :: r => _ ← body x; for_each r body
  end.

(** *** create_default_config *)

Definition default_categories : pyval :=
  VDict [
    ("Archives", VList (map VStr
       [".zip"; ".rar"; ".7z"; ".tar"; ".gz"; ".bz2"; ".xz"; ".iso"; ".dmg";
        ".pkg"]));
    ("Documents", VList (map VStr
       [".pdf"; ".doc"; ".docx"; ".txt"; ".rtf"; ".odt"; ".xls"; ".xlsx";
        ".ppt"; ".pptx"; ".csv"; ".md"; ".epub"; ".mobi"]));
    ("Graphics", VList (map VStr
       [".jpg"; ".jpeg"; ".png"; ".gif"; ".bmp"; ".svg"; ".webp"; ".tiff";
        ".psd"; ".raw"; ".ico"; ".heic"; ".mp4"; ".mov"; ".avi"; ".mkv";
        ".wmv"; ".flv"; ".webm"; ".m4v"; ".mp3"; ".wav"; ".flac"; ".aac";
        ".ogg"; ".wma"; ".m4a"; ".aiff"; ".mid"; ".midi"]));
    ("Others", VList []);
    ("Programs", VList (map VStr
       [".exe"; ".msi"; ".deb"; ".rpm"; ".appimage"; ".bat"; ".sh"; ".cmd";
        ".apk"; ".dmg"; ".pkg"]))
  ].

Definition create_default_config : pyval :=
  VDict [
    ("initialized", VBool true);
    ("downloads_path", VStr "~/Downloads");
    ("file_categories", default_categories)
  ].

(** *** get_available_name *)

(** [parent_dir / f"{stem} ({counter}){suffix}"] *)
Definition candidate (destination_path : Path) (counter : nat) : Path :=
  parent destination_path
    // (stem destination_path +:+ " (" +:+ Str.of_nat counter +:+ ")"
        +:+ suffix destination_path).

(** The [while True] loop, with [fuel] iterations at most. *)
Fixpoint available_loop (fs : FS) (destination_path : Path)
    (fuel counter : nat) : option Path :=
  match fuel with
  | O => None
  | S fuel' =>
      let new_path := candidate destination_path counter in
      if negb (path_exists fs new_path) then Some new_path
      else available_loop fs destination_path fuel' (S counter)
  end.

Definition get_available_name_fuel (fuel : nat) (fs : FS)
    (destination_path : Path) : option Path :=
  if negb (path_exists fs destination_path) then Some destination_path
  else available_loop fs destination_path fuel 1.

(** The loop is run with one more iteration than the file system has
    entries, which is always enough ([available_loop_enough] below); the
    [None] branch is never taken. *)
Definition get_available_name (fs : FS) (destination_path : Path) : Path :=
  match get_available_name_fuel (S (size fs)) fs destination_path with
  | Some p => p
  | None => destination_path
  end.

(** *** The classification chain of [sorter] (lines 238-247) *)

Definition bind_outcome {A B} (r : outcome A) (k : A -> outcome B) : outcome B :=
  match r with
  | Ok a => k a
  | Raise e => Raise e
  end.

(** [file_suffix in categories[key]] *)
Definition in_category (categories : pyval) (key file_suffix : string)
  : outcome bool :=
  bind_outcome (getitem categories key) (fun c => contains c file_suffix).

(** The name of the folder chosen by the [if]/[elif] chain. *)
Definition classify (categories : pyval) (file_suffix : string)
  : outcome string :=
  bind_outcome (in_category categories "Archives" file_suffix) (fun b =>
  if b then Ok "Archives" else
  bind_outcome (in_category categories "Documents" file_suffix) (fun b =>
  if b then Ok "Documents" else
  bind_outcome (in_category categories "Graphics" file_suffix) (fun b =>
  if b then Ok "Graphics" else
  bind_outcome (in_category categories "Programs" file_suffix) (fun b =>
  if b then Ok "Programs" else
  Ok "Others")))).

(** [item.suffix.lower()] followed by the chain. *)
Definition classify_name (E : env) (categories : pyval) (item_name : string)
  : outcome string :=
  classify categories (str_lower E (suffix_of_name item_name)).

Section Run.

Variable E : env.

(** [Path(s).expanduser()].  The default ["~/Downloads"] names the home of
    the current user, which is known: it expands to that home's
    [Downloads].  For any other string the platform answers. *)
Definition path_expanduser (s : string) : outcome Path :=
  if String.eqb s "~/Downloads" then Ok (path_home E // "Downloads")
  else
    match expanduser E s with
    | Some p => Ok p
    | None => Raise RuntimeError
    end.

(** [config["downloads_path"] = Path(config["downloads_path"]).expanduser()] *)
Definition expand_downloads_path (config : pyval) : outcome pyval :=
  bind_outcome (getitem config "downloads_path") (fun v =>
  match v with
  | VStr s =>
      bind_outcome (path_expanduser s) (fun p =>
      setitem config "downloads_path" (VPath p))
  | VPath p => setitem config "downloads_path" (VPath p)
  | _ => Raise TypeError
  end).

(** *** load_config *)

Definition backup_corrupted : M unit :=
  let backup_path := with_suffix (CONFIG_FILE E) ".json.bak" in
  try_except
    (_ ← on_fs (fun fs => copy2 (deny E) fs (CONFIG_FILE E) backup_path);
     logger (BackupSaved backup_path))
    (fun _ => logger BackupFailed).

Definition repair_config : M pyval :=
  _ ← logger ConfigCorrupted;
  _ ← backup_corrupted;
  config ← lift (expand_downloads_path create_default_config);
  _ ← on_fs (fun fs => write_json (deny E) fs (CONFIG_FILE E) config);
  _ ← logger NewDefaultCreated;
  mret config.

Definition load_config : M pyval :=
  try_except
    (_ ← on_fs (fun fs => mkdir_parents (deny E) fs (APP_DATA_DIR E));
     present ← ask_fs (fun fs => path_exists fs (CONFIG_FILE E));
     if negb present then
       _ ← logger NoConfigFound;
       lift (expand_downloads_path create_default_config)
     else
       try_except
         (text ← ask_fs (fun fs => read_file (deny E) fs (CONFIG_FILE E));
          text ← lift text;
          config ← lift (json_loads E text);
          lift (expand_downloads_path config))
         (fun e =>
            match e with
            | JSONDecodeError => repair_config
            | _ => raise e
            end))
    (fun e =>
       _ ← logger (UnexpectedLoadError e);
       lift (expand_downloads_path create_default_config)).

(** *** sorter *)

Definition as_path (v : pyval) : outcome Path :=
  match v with
  | VPath p => Ok p
  | _ => Raise AttributeError
  end.

(** Lines 211-232: the first-run block. *)
Definition create_folders (dry_run : bool) (download_path : Path)
    (folder_names : list string) : M unit :=
  for_each folder_names (fun folder_name =>
    if dry_run then logger (DryWouldCreate download_path folder_name)
    else
      _ ← on_fs (fun fs =>
             mkdir_exist_ok (deny E) fs (download_path // folder_name));
      logger (CreatedFolder folder_name)).

Definition save_config (config : pyval) (download_path : Path) : M unit :=
  try_except
    (config_for_save ←
       lift (setitem config "downloads_path" (VStr (Pathlib.str download_path)));
     _ ← on_fs (fun fs => write_json (deny E) fs (CONFIG_FILE E) config_for_save);
     logger ConfigUpdated)
    (fun e => logger (SaveError e)).

Definition first_run (dry_run : bool) (config categories : pyval)
    (download_path : Path) : M unit :=
  _ ← logger FirstRunDetected;
  folder_names ← lift (keys categories);
  _ ← create_folders dry_run download_path folder_names;
  config ← lift (setitem config "initialized" (VBool true));
  if negb dry_run then save_config config download_path
  else logger DryWouldSetInitialized.

(** Lines 235-265: the body of the loop over the directory entries. *)
Definition process_item (dry_run : bool) (categories : pyval)
    (download_path item : Path) : M unit :=
  regular ← ask_fs (fun fs => is_file fs item);
  if negb regular then mret tt
  else
    category ← lift (classify_name E categories (name item));
    let target_dir := download_path // category in
    let original_destination := target_dir // name item in
    final_destination ←
      ask_fs (fun fs => get_available_name fs original_destination);
    let same := bool_decide (original_destination = final_destination) in
    if dry_run then
      if same then logger (DryWouldMove (name item) (name target_dir))
      else logger (DryWouldMoveAs (name item) (name target_dir)
                                  (name final_destination))
    else
      try_except
        (_ ← on_fs (fun fs => shutil_move (deny E) fs item final_destination);
         if same then logger (Moved (name item) (name target_dir))
         else logger (MovedRenamed (name item) (name target_dir)
                                   (name final_destination)))
        (fun e => logger (MoveError (name item) e)).

(** [download_path.iterdir()]: the listing is taken once, before the
    first entry is processed. *)
Definition iterdir (download_path : Path) : M (list Path) := fun w =>
  match lookup_node (fs w) download_path with
  | None => (Raise FileNotFoundError, w)
  | Some (File _) => (Raise NotADirectoryError, w)
  | Some Dir =>
      if deny E (OpRead download_path) then (Raise PermissionError, w)
      else (Ok (children (fs w) download_path), w)
  end.

Definition organize (dry_run : bool) (categories : pyval)
    (download_path : Path) : M unit :=
  items ← iterdir download_path;
  for_each items (process_item dry_run categories download_path).

Definition sorter_with (dry_run : bool) (config : pyval) : M unit :=
  match config with
  | VNone => logger ExitingNoConfig
  | _ =>
      download_path ← lift (getitem config "downloads_path");
      categories ← lift (getitem config "file_categories");
      download_path ← lift (as_path download_path);
      present ← ask_fs (fun fs => path_exists fs download_path);
      if negb present then logger (DownloadsMissing download_path)
      else
        initialized ← lift (dict_get config "initialized" (VBool false));
        _ ← (if negb (truthy initialized)
             then first_run dry_run config categories download_path
             else mret tt);
        organize dry_run categories download_path
  end.

Definition sorter (dry_run : bool) : M unit :=
  config ← load_config;
  sorter_with dry_run config.

End Run.

End TidyBot.

Export TidyBot.

(* ===================================================================== *)
(** ** The specification's vocabulary *)
(* ===================================================================== *)

Module Spec.

(** The fixed priority order of the classifier. *)
Definition priority : list string :=
  ["Archives"; "Documents"; "Graphics"; "Programs"].

Definition fallback : string := "Others".

(** The classifier in the words of the specification: the first category
    in priority order whose extension set contains the extension wins;
    if none does, the fallback category is returned. *)
Definition classify_spec (extension_set : string -> list string)
    (extension : string) : string :=
  match List.find (fun c => bool_decide (extension ∈ extension_set c)) priority with
  | Some c => c
  | None => fallback
  end.

(** The configuration's view of a category table whose extension sets are
    lists of strings. *)
Definition table_of (categories : pyval) (extension_set : string -> list string)
  : Prop :=
  forall c, c ∈ priority ->
    getitem categories c = Ok (VList (map VStr (extension_set c))).

(** A folder name that is one path component, so that [p / name] is [p]
    with that component appended. *)
Definition simple_name (n : string) : bool :=
  negb (String.eqb n "") && negb (String.eqb n ".") && negb (String.eqb n "..")
  && negb (Str.contains "/" n).

(** A computation that leaves the file system as it found it. *)
Definition keeps_fs {A} (m : M A) : Prop := forall w, fs (snd (m w)) = fs w.



(** [fs'] has the directories of [fs] and no regular file that [fs] has
    not. *)
Definition grows_dirs (fs fs' : FS) : Prop :=
  forall q, (is_dir fs q = true -> is_dir fs' q = true) /\
            (is_file fs q = false -> is_file fs' q = false).

End Spec.

Export Spec.

(* ===================================================================== *)
(** ** Concrete runs *)
(* ===================================================================== *)

Module Scenario.

Definition home : Path := ["home"; "u"].
Definition app_data_dir : Path := home ++ [".config"; "tidybot"].
Definition downloads : Path := home // "Downloads".
Definition config_file : Path := app_data_dir // "config.json".

(** The components of a path string. *)
Fixpoint split_slash (s acc : string) : list string :=
  match s with
  | EmptyString => if String.eqb acc "" then [] else [acc]
  | String c r =>
      if Ascii.eqb c "/" then
        (if String.eqb acc "" then [] else [acc]) ++ split_slash r ""
      else split_slash r (acc +:+ String c EmptyString)
  end.

(** [Path(s).expanduser()] on a system whose only user has the home
    [home]. *)
Definition expand (s : string) : option Path :=
  match split_slash s "" with
  | "~" :: r => Some (home ++ r)
  | first :: r => if Str.is_prefix "~" first then None else Some (first :: r)
  | [] => Some []
  end.

(** A parser that knows the texts of a table and rejects every other text
    as malformed. *)
Definition loads_table (table : list (string * pyval)) (text : string)
  : outcome pyval :=
  match assoc text table with
  | Some v => Ok v
  | None => Raise JSONDecodeError
  end.

Definition text_of (v : pyval) : string := fst (Json.iterencode v 0).

(** A configuration file as [sorter] saves it. *)
Definition config_value (initialized : bool) (categories : pyval) : pyval :=
  VDict [("initialized", VBool initialized);
         ("downloads_path", VStr "/home/u/Downloads");
         ("file_categories", categories)].

Definition categories_without_others : pyval :=
  VDict [("Archives", VList [VStr ".zip"]);
         ("Documents", VList [VStr ".pdf"]);
         ("Graphics", VList [VStr ".png"]);
         ("Programs", VList [VStr ".exe"])].

Definition categories_with_music : pyval :=
  VDict [("Archives", VList [VStr ".zip"]);
         ("Documents", VList [VStr ".pdf"]);
         ("Graphics", VList [VStr ".png"]);
         ("Music", VList [VStr ".mp3"]);
         ("Others", VList []);
         ("Programs", VList [VStr ".exe"])].

Definition categories_without_programs : pyval :=
  VDict [("Archives", VList [VStr ".zip"]);
         ("Documents", VList [VStr ".pdf"]);
         ("Graphics", VList [VStr ".png"]);
         ("Others", VList [])].

(** The category table of [categories_with_music]. *)
Definition music_items : list (string * pyval) :=
  match categories_with_music with VDict d => d | _ => [] end.

Definition known_configs : list (string * pyval) :=
  map (fun v => (text_of v, v))
    [config_value false default_categories;
     config_value true categories_without_others;
     config_value false categories_with_music].

Definition plain_env : env :=
  {| APP_DATA_DIR := app_data_dir;
     path_home := home;
     json_loads := loads_table known_configs;
     str_lower := Str.lower;
     expanduser := expand;
     deny := fun _ => false |}.

(** The same platform, on which [a.zip] can be neither renamed nor
    read. *)
Definition denying_env : env :=
  {| APP_DATA_DIR := app_data_dir;
     path_home := home;
     json_loads := loads_table known_configs;
     str_lower := Str.lower;
     expanduser := expand;
     deny := fun op =>
       match op with
       | OpRename src _ => bool_decide (src = downloads // "a.zip")
       | OpRead p => bool_decide (p = downloads // "a.zip")
       | _ => false
       end |}.

Definition base_dirs : list (Path * node) :=
  [(["home"], Dir); (home, Dir); (home // ".config", Dir);
   (app_data_dir, Dir); (downloads, Dir)].

Definition category_dirs : list (Path * node) :=
  map (fun c => (downloads // c, Dir))
    ["Archives"; "Documents"; "Graphics"; "Others"; "Programs"].

Definition start (entries : list (Path * node)) : world :=
  {| fs := list_to_map entries; logs := [] |}.

(** No configuration file; one archive waits in the downloads folder. *)
Definition fresh : world :=
  start (base_dirs ++ [(downloads // "a.zip", File "PK")]).

(** A configuration file that is not JSON. *)
Definition corrupted_text : string := "{oops".

Definition corrupted : world :=
  start (base_dirs ++ [(config_file, File corrupted_text);
                       (downloads // "a.zip", File "PK")]).

(** A saved configuration that has not been initialized yet. *)
Definition uninitialized : world :=
  start (base_dirs ++
         [(config_file, File (text_of (config_value false default_categories)));
          (downloads // "a.zip", File "PK");
          (downloads // "b.JPG", File "JFIF")]).

(** An initialized downloads folder with two files to sort. *)
Definition sorted_once : world :=
  start (base_dirs ++ category_dirs ++
         [(downloads // "a.zip", File "PK");
          (downloads // "b.JPG", File "JFIF")]).

(** The collision examples of the specification. *)
Definition photo : Path := downloads // "Graphics" // "photo.png".

Definition one_photo : FS :=
  list_to_map (base_dirs ++ category_dirs ++ [(photo, File "1")]).

Definition two_photos : FS :=
  <[downloads // "Graphics" // "photo (1).png" := File "2"]> one_photo.

(** A configuration without the key [Others], already initialized, and a
    file with an unknown extension. *)
Definition no_others : world :=
  start (base_dirs ++ category_dirs ++
         [(config_file,
           File (text_of (config_value true categories_without_others)));
          (downloads // "notes.xyz", File "?")]).

(** A configuration with the additional category [Music], not yet
    initialized. *)
Definition with_music : world :=
  start (base_dirs ++
         [(config_file,
           File (text_of (config_value false categories_with_music)));
          (downloads // "song.mp3", File "ID3")]).

(** The listing of [sorted_once]'s downloads folder. *)
Definition two_items : list Path :=
  [downloads // "a.zip"; downloads // "b.JPG"].

Definition default_sets (c : string) : list string :=
  match getitem default_categories c with
  | Ok (VList l) =>
      omap (fun v => match v with VStr s => Some s | _ => None end) l
  | _ => []
  end.

Definition backup_file : Path := app_data_dir // "config.json.bak".

(** The default configuration as the saving code of [sorter] writes a
    configuration: with the downloads path as a string. *)
Definition default_as_saved : pyval :=
  VDict [("initialized", VBool true);
         ("downloads_path", VStr (Pathlib.str downloads));
         ("file_categories", default_categories)].

(** The text that is in the configuration file after an attempt to dump
    the default configuration with a [Path] object in it. *)
Definition truncated_text : string :=
  "{" +:+ Json.newline_indent 1 +:+ Json.encode_str "initialized" +:+ ": true,"
  +:+ Json.newline_indent 1 +:+ Json.encode_str "downloads_path" +:+ ": ".

Definition category_names : list string :=
  ["Archives"; "Documents"; "Graphics"; "Others"; "Programs"].

End Scenario.

(* ===================================================================== *)
(** ** The main block *)
(* ===================================================================== *)

Module Main.

(** The record that ends a run: lines 273-277. *)
Inductive verdict : Type :=
| FinishedSuccessfully
| EncounteredError (e : exn).

(** The [__main__] block: [sorter] is run with the flag of the command
    line; an exception that leaves it is caught and logged. *)
Definition main (E : env) (dry_run : bool) (w : world) : verdict * world :=
  match sorter E dry_run w with
  | (Ok _, w') => (FinishedSuccessfully, w')
  | (Raise e, w') => (EncounteredError e, w')
  end.

End Main.

Export Main.

(* ===================================================================== *)
(** ** Further concrete runs *)
(* ===================================================================== *)

Module Cases.

Import Scenario.

(** A configuration file without the key [file_categories]. *)
Definition config_without_categories : pyval :=
  VDict [("initialized", VBool true);
         ("downloads_path", VStr "/home/u/Downloads")].

(** A configuration whose downloads path names a regular file. *)
Definition config_to_file : pyval :=
  VDict [("initialized", VBool true);
         ("downloads_path", VStr "/home/u/notes.txt");
         ("file_categories", default_categories)].

(** The texts the parser of [more_env] knows: a JSON list, and the texts of
    four configurations. *)
Definition more_configs : list (string * pyval) :=
  ("[]", VList []) ::
  map (fun v => (text_of v, v))
    [config_value true default_categories;
     config_value false default_categories;
     config_without_categories;
     config_to_file].

Definition more_env : env :=
  {| APP_DATA_DIR := app_data_dir;
     path_home := home;
     json_loads := loads_table more_configs;
     str_lower := Str.lower;
     expanduser := expand;
     deny := fun _ => false |}.

(** A world whose configuration file holds [text]. *)
Definition with_config (text : string) (entries : list (Path * node)) : world :=
  start (base_dirs ++ (config_file, File text) :: entries).

Definition list_config : world := with_config "[]" [].

Definition without_categories : world :=
  with_config (text_of config_without_categories) [].

Definition pointing_to_file : world :=
  with_config (text_of config_to_file) [(home // "notes.txt", File "n")].

(** No downloads folder, no configuration file. *)
Definition no_downloads : world :=
  start [(["home"], Dir); (home, Dir); (home // ".config", Dir);
         (app_data_dir, Dir)].

(** A sorted photo, and a new file of the same name in the downloads
    folder. *)
Definition resorting : world :=
  start (base_dirs ++ category_dirs ++
         [(photo, File "1"); (downloads // "photo.png", File "2")]).

(** An uninitialized configuration, and a regular file that has the name of
    a category. *)
Definition blocked : world :=
  with_config (text_of (config_value false default_categories))
    [(downloads // "Documents", File "x")].

(** The configuration [load_config] returns in [uninitialized]. *)
Definition loaded_items : list (string * pyval) :=
  [("initialized", VBool false);
   ("downloads_path", VPath downloads);
   ("file_categories", default_categories)].

(** The same configuration once it is initialized. *)
Definition initialized_items : list (string * pyval) :=
  [("initialized", VBool true);
   ("downloads_path", VPath downloads);
   ("file_categories", default_categories)].

Definition default_items : list (string * pyval) :=
  match default_categories with VDict d => d | _ => [] end.

End Cases.

(* ===================================================================== *)
(** * Facts *)
(* ===================================================================== *)

Import Scenario.

(** ** Strings and candidate names *)

Section StringFacts.

Lemma string_app_cons (c : ascii) (s t : string) :
  String c s +:+ t = String c (s +:+ t).
Proof. reflexivity. Qed.

Lemma string_length_app (s t : string) :
  String.length (s +:+ t) = String.length s + String.length t.
Proof.
  induction s as [|c s IH]; [done|].
  rewrite string_app_cons. simpl. by rewrite IH.
Qed.

Lemma string_app_inv_tail (t s1 s2 : string) :
  s1 +:+ t = s2 +:+ t -> s1 = s2.
Proof.
  revert s2. induction s1 as [|c s1 IH]; intros [|d s2] Heq.
  - done.
  - apply (f_equal String.length) in Heq.
    rewrite !string_length_app in Heq. simpl in Heq. lia.
  - apply (f_equal String.length) in Heq.
    rewrite !string_length_app in Heq. simpl in Heq. lia.
  - rewrite !string_app_cons in Heq. injection Heq as -> Heq.
    f_equal. by apply IH.
Qed.

Lemma of_nat_inj (n m : nat) : Str.of_nat n = Str.of_nat m -> n = m.
Proof.
  unfold Str.of_nat. intros Heq.
  apply (f_equal NilEmpty.uint_of_string) in Heq.
  rewrite !NilEmpty.usu in Heq. injection Heq as Heq.
  apply (f_equal Nat.of_uint) in Heq. by rewrite !Unsigned.of_to in Heq.
Qed.

End StringFacts.

Lemma candidate_inj (p : Path) (j k : nat) : candidate p j = candidate p k -> j = k.
Proof.
  unfold candidate, Pathlib.div. intros Heq.
  apply app_inj_tail in Heq as [_ Heq].
  apply String.app_inj in Heq. apply String.app_inj in Heq.
  apply string_app_inv_tail in Heq. by apply of_nat_inj.
Qed.

Lemma candidate_not_root (p : Path) (k : nat) : candidate p k ≠ [].
Proof. unfold candidate, Pathlib.div. by destruct (parent p). Qed.

Lemma path_exists_lookup (fs : FS) (p : Path) :
  p ≠ [] -> path_exists fs p = true -> is_Some (fs !! p).
Proof.
  intros Hp. unfold path_exists, lookup_node. destruct p; [done|].
  destruct (fs !! _); [eauto | done].
Qed.

(** Pigeonhole: the candidates numbered [c .. c + n - 1] cannot all exist
    when the file system has fewer than [n] entries. *)
Lemma candidates_exceed (fs : FS) (p : Path) (c n : nat) :
  (forall k, c <= k < c + n -> path_exists fs (candidate p k) = true) ->
  n <= size fs.
Proof.
  intros Hall.
  set (l := candidate p <$> seq c n).
  assert (Hnd : NoDup l).
  { apply NoDup_fmap_2; [|apply NoDup_seq]. intros j k. apply candidate_inj. }
  assert (Hsub : (list_to_set l : gset Path) ⊆ dom fs).
  { intros q Hq. apply elem_of_list_to_set, list_elem_of_fmap in Hq as (k & -> & Hk).
    apply elem_of_seq in Hk. apply elem_of_dom.
    apply path_exists_lookup; [apply candidate_not_root | apply Hall; lia]. }
  apply subseteq_size in Hsub.
  rewrite size_list_to_set, size_dom in Hsub by done.
  unfold l in Hsub. by rewrite length_fmap, length_seq in Hsub.
Qed.

Lemma available_loop_none (fs : FS) (p : Path) (fuel c : nat) :
  available_loop fs p fuel c = None ->
  forall k, c <= k < c + fuel -> path_exists fs (candidate p k) = true.
Proof.
  revert c. induction fuel as [|fuel IH]; intros c Hnone k Hk; [lia|].
  simpl in Hnone. destruct (path_exists fs (candidate p c)) eqn:Hc; [|done].
  simpl in Hnone. destruct (decide (k = c)) as [->|Hne]; [done|].
  apply (IH (S c)); [done | lia].
Qed.

Lemma available_loop_some (fs : FS) (p : Path) (fuel c : nat) (q : Path) :
  available_loop fs p fuel c = Some q ->
  exists k, c <= k < c + fuel /\ q = candidate p k /\
            path_exists fs (candidate p k) = false /\
            forall j, c <= j < k -> path_exists fs (candidate p j) = true.
Proof.
  revert c. induction fuel as [|fuel IH]; intros c Hsome; [done|].
  simpl in Hsome. destruct (path_exists fs (candidate p c)) eqn:Hc; simpl in Hsome.
  - destruct (IH _ Hsome) as (k & Hk & -> & Hfree & Hbelow).
    exists k. repeat split; [lia | lia | done |].
    intros j Hj. destruct (decide (j = c)) as [->|Hne]; [done|]. apply Hbelow. lia.
  - injection Hsome as <-. exists c. repeat split; [lia | lia | done |]. intros; lia.
Qed.

Lemma available_loop_more (fs : FS) (p : Path) (fuel extra c : nat) (q : Path) :
  available_loop fs p fuel c = Some q ->
  available_loop fs p (fuel + extra) c = Some q.
Proof.
  revert c. induction fuel as [|fuel IH]; intros c Hsome; [done|].
  simpl in *. destruct (negb (path_exists fs (candidate p c))); [done|]. by apply IH.
Qed.

Lemma available_loop_enough (fs : FS) (p : Path) :
  is_Some (available_loop fs p (S (size fs)) 1).
Proof.
  destruct (available_loop fs p (S (size fs)) 1) eqn:Hloop; [eauto|].
  pose proof (candidates_exceed fs p 1 (S (size fs))
                (available_loop_none _ _ _ _ Hloop)). lia.
Qed.

(** ** Name resolution *)

Lemma get_available_name_fuel_enough (fs : FS) (p : Path) (extra : nat) :
  get_available_name_fuel (S (size fs) + extra) fs p = Some (get_available_name fs p).
Proof.
  unfold get_available_name, get_available_name_fuel.
  destruct (negb (path_exists fs p)); [done|].
  destruct (available_loop_enough fs p) as [q Hq].
  rewrite Hq. by apply available_loop_more.
Qed.

Lemma get_available_name_free (fs : FS) (p : Path) :
  path_exists fs (get_available_name fs p) = false.
Proof.
  unfold get_available_name, get_available_name_fuel.
  destruct (path_exists fs p) eqn:Hp; cbn [negb]; [|done].
  destruct (available_loop_enough fs p) as [q Hq]. rewrite Hq.
  by destruct (available_loop_some _ _ _ _ _ Hq) as (k & _ & -> & Hfree & _).
Qed.

(** C8.  Name resolution terminates for every destination path and every
    file system: the search loop, given one more iteration than the file
    system has entries (or any larger number), returns a path, and that path
    does not exist.  The candidates are pairwise distinct and the file
    system is finite, so they cannot all be taken. *)
Theorem get_available_name_terminates (fs : FS) (destination_path : Path)
    (extra : nat) :
  exists new_path,
    get_available_name_fuel (S (size fs) + extra) fs destination_path
      = Some new_path /\
    path_exists fs new_path = false.
Proof.
  exists (get_available_name fs destination_path).
  split; [apply get_available_name_fuel_enough | apply get_available_name_free].
Qed.

(** C4.  Name resolution: a destination that does not exist is returned
    unchanged; otherwise the result is the candidate
    [stem (counter)suffix] in the same parent directory for the smallest
    [counter >= 1] whose candidate does not exist. *)
Theorem get_available_name_spec (fs : FS) (destination_path : Path) :
  (path_exists fs destination_path = false ->
   get_available_name fs destination_path = destination_path) /\
  (path_exists fs destination_path = true ->
   exists counter,
     1 <= counter /\
     get_available_name fs destination_path
       = parent destination_path
         // (stem destination_path +:+ " (" +:+ Str.of_nat counter +:+ ")"
             +:+ suffix destination_path) /\
     path_exists fs (candidate destination_path counter) = false /\
     forall j, 1 <= j < counter ->
       path_exists fs (candidate destination_path j) = true).
Proof.
  unfold get_available_name, get_available_name_fuel. split; intros Hp; rewrite Hp; cbn [negb].
  - done.
  - destruct (available_loop_enough fs destination_path) as [q Hq]. rewrite Hq.
    destruct (available_loop_some _ _ _ _ _ Hq) as (k & Hk & -> & Hfree & Hbelow).
    exists k. repeat split; [lia | done | done].
Qed.

Lemma get_available_name_spec_witness :
  path_exists one_photo photo = true /\
  get_available_name one_photo photo = downloads // "Graphics" // "photo (1).png" /\
  get_available_name two_photos photo = downloads // "Graphics" // "photo (2).png" /\
  exists counter,
     1 <= counter /\
     get_available_name one_photo photo
       = parent photo // (stem photo +:+ " (" +:+ Str.of_nat counter +:+ ")" +:+ suffix photo) /\
     path_exists one_photo (candidate photo counter) = false /\
     forall j, 1 <= j < counter -> path_exists one_photo (candidate photo j) = true.
Proof.
  split; [reflexivity|]. split; [vm_compute; reflexivity|]. split; [vm_compute; reflexivity|].
  apply (proj2 (get_available_name_spec one_photo photo)). reflexivity.
Defined.

(** ** Classification *)

Lemma existsb_str_eq (s : string) (l : list string) :
  existsb (str_eq s) (map VStr l) = bool_decide (s ∈ l).
Proof.
  induction l as [|t l IH]; cbn [existsb map].
  - symmetry. apply bool_decide_eq_false. by intros ?%elem_of_nil.
  - rewrite IH. cbn [str_eq]. destruct (String.eqb_spec s t) as [->|Hne]; cbn [orb].
    + symmetry. apply bool_decide_eq_true. left.
    + apply bool_decide_ext. rewrite elem_of_cons. split; [tauto|]. by intros [?|?].
Qed.

Lemma in_category_table (categories : pyval) (sets : string -> list string)
    (c ext : string) :
  table_of categories sets -> c ∈ priority ->
  in_category categories c ext = Ok (bool_decide (ext ∈ sets c)).
Proof.
  intros Htable Hc. unfold in_category. rewrite (Htable c Hc). simpl.
  by rewrite existsb_str_eq.
Qed.

(** A table with the four keys classifies every extension. *)
Lemma classify_total (categories : pyval)
    (extension_set : string -> list string) (extension : string) :
  table_of categories extension_set ->
  exists category, classify categories extension = Ok category.
Proof.
  intros Htable. unfold classify.
  rewrite !(in_category_table _ extension_set) by (done || set_solver).
  cbn [bind_outcome]. repeat case_bool_decide; eauto.
Qed.

(** C3.  For every extension string, the classification chain agrees with
    the classifier of the specification: the categories are checked in the
    order Archives, Documents, Graphics, Programs, the first one whose
    extension set contains the extension wins, and [Others] is the result
    when none does. *)
Theorem classify_priority_order (categories : pyval)
    (extension_set : string -> list string) (extension : string) :
  table_of categories extension_set ->
  classify categories extension = Ok (classify_spec extension_set extension).
Proof.
  intros Htable. unfold classify, classify_spec, priority, fallback.
  rewrite !(in_category_table _ extension_set) by (done || set_solver).
  cbn [bind_outcome List.find].
  repeat case_bool_decide; reflexivity.
Qed.

Lemma default_table : table_of default_categories Scenario.default_sets.
Proof.
  intros c Hc. unfold priority in Hc.
  repeat (apply elem_of_cons in Hc as [->|Hc]; [reflexivity|]).
  by apply elem_of_nil in Hc.
Qed.

Lemma classify_priority_order_witness :
  table_of default_categories Scenario.default_sets /\
  classify default_categories ".dmg" = Ok "Archives".
Proof.
  split; [exact default_table|].
  exact (classify_priority_order default_categories Scenario.default_sets ".dmg"
           default_table).
Defined.

(** C7.  Classification is case-insensitive.  For every file name the
    extension is lowercased, by [str.lower()] and whatever its letters are,
    before the lookup: with a table that has the four keys, the category is
    the one the classifier of the specification finds for the lowercased
    extension.  Hence two names whose extensions have the same lowercase
    form, such as [.JPG] and [.jpg], are classified alike, with any
    table. *)
Theorem classification_case_insensitive (E : env) (categories : pyval)
    (extension_set : string -> list string) (n1 n2 : string) :
  (table_of categories extension_set ->
   classify_name E categories n1
   = Ok (classify_spec extension_set (str_lower E (suffix_of_name n1)))) /\
  (str_lower E (suffix_of_name n1) = str_lower E (suffix_of_name n2) ->
   classify_name E categories n1 = classify_name E categories n2).
Proof.
  unfold classify_name. split.
  - intros Htable. unfold classify, classify_spec, priority, fallback.
    rewrite !(in_category_table _ extension_set) by (done || set_solver).
    cbn [bind_outcome List.find].
    repeat case_bool_decide; reflexivity.
  - by intros ->.
Qed.

Lemma classification_case_insensitive_witness :
  table_of default_categories Scenario.default_sets /\
  str_lower plain_env (suffix_of_name "photo.JPG")
  = str_lower plain_env (suffix_of_name "photo.jpg") /\
  classify_name plain_env default_categories "photo.JPG" = Ok "Graphics" /\
  classify_name plain_env default_categories "photo.JPG"
  = classify_name plain_env default_categories "photo.jpg".
Proof.
  split; [exact default_table|]. split; [reflexivity|].
  destruct (classification_case_insensitive plain_env default_categories
              Scenario.default_sets "photo.JPG" "photo.jpg") as [Hlookup Hsame].
  split; [exact (Hlookup default_table) | exact (Hsame eq_refl)].
Defined.

(** ** Effects *)

Ltac unfold_monad :=
  unfold try_except, mbind, M_bind, mret, M_ret, lift, raise, logger, ask_fs, on_fs in *.

Section Frame.

Lemma keeps_ret {A} (a : A) : keeps_fs (mret a).
Proof. by intros w. Qed.

Lemma keeps_lift {A} (r : outcome A) : keeps_fs (lift r).
Proof. by intros w. Qed.

Lemma keeps_logger (m : message) : keeps_fs (logger m).
Proof. by intros w. Qed.

Lemma keeps_ask {A} (q : FS -> A) : keeps_fs (ask_fs q).
Proof. by intros w. Qed.

Lemma keeps_bind {A B} (m : M A) (k : A -> M B) :
  keeps_fs m -> (forall a, keeps_fs (k a)) -> keeps_fs (m ≫= k).
Proof.
  intros Hm Hk w. unfold mbind, M_bind. specialize (Hm w).
  destruct (m w) as [[a|e] w']; simpl in *; [|done].
  by rewrite Hk.
Qed.

Lemma keeps_try {A} (m : M A) (h : exn -> M A) :
  keeps_fs m -> (forall e, keeps_fs (h e)) -> keeps_fs (try_except m h).
Proof.
  intros Hm Hh w. unfold try_except. specialize (Hm w).
  destruct (m w) as [[a|e] w']; simpl in *; [done|].
  by rewrite Hh.
Qed.

Lemma keeps_for_each {A} (l : list A) (body : A -> M unit) :
  (forall x, keeps_fs (body x)) -> keeps_fs (for_each l body).
Proof.
  intros Hbody. induction l as [|x l IH]; simpl.
  - apply keeps_ret.
  - apply keeps_bind; [apply Hbody | intros _; apply IH].
Qed.

End Frame.

Create HintDb frame.
#[export] Hint Resolve keeps_ret keeps_lift keeps_logger keeps_ask : frame.

Lemma keeps_process_item (E : env) (categories : pyval) (download_path item : Path) :
  keeps_fs (process_item E true categories download_path item).
Proof.
  unfold process_item.
  apply keeps_bind; [auto with frame|]. intros [|]; cbn [negb]; [|auto with frame].
  apply keeps_bind; [auto with frame|]. intros category.
  apply keeps_bind; [auto with frame|]. intros final.
  case_bool_decide; auto with frame.
Qed.

Lemma keeps_iterdir (E : env) (p : Path) : keeps_fs (iterdir E p).
Proof. intros w. unfold iterdir. by repeat case_match. Qed.

Lemma keeps_organize (E : env) (categories : pyval) (download_path : Path) :
  keeps_fs (organize E true categories download_path).
Proof.
  unfold organize. apply keeps_bind; [apply keeps_iterdir|]. intros items.
  apply keeps_for_each. intros item. apply keeps_process_item.
Qed.

Lemma keeps_first_run (E : env) (config categories : pyval) (download_path : Path) :
  keeps_fs (first_run E true config categories download_path).
Proof.
  unfold first_run, create_folders.
  apply keeps_bind; [auto with frame|]. intros _.
  apply keeps_bind; [auto with frame|]. intros names.
  apply keeps_bind; [apply keeps_for_each; intros n; apply keeps_logger|]. intros _.
  apply keeps_bind; [auto with frame|]. intros config'. apply keeps_logger.
Qed.

Lemma keeps_sorter_with (E : env) (config : pyval) :
  keeps_fs (sorter_with E true config).
Proof.
  assert (Hgo : keeps_fs (
      download_path ← lift (getitem config "downloads_path");
      categories ← lift (getitem config "file_categories");
      download_path ← lift (as_path download_path);
      present ← ask_fs (fun fs => path_exists fs download_path);
      if negb present then logger (DownloadsMissing download_path)
      else
        initialized ← lift (dict_get config "initialized" (VBool false));
        _ ← (if negb (truthy initialized)
             then first_run E true config categories download_path
             else mret tt);
        organize E true categories download_path)).
  { apply keeps_bind; [auto with frame|]. intros v.
    apply keeps_bind; [auto with frame|]. intros categories.
    apply keeps_bind; [auto with frame|]. intros download_path.
    apply keeps_bind; [auto with frame|]. intros [|]; cbn [negb]; [|auto with frame].
    apply keeps_bind; [auto with frame|]. intros initialized.
    apply keeps_bind; [|intros _; apply keeps_organize].
    destruct (negb _); [apply keeps_first_run | auto with frame]. }
  unfold sorter_with. destruct config; auto with frame.
Qed.

Lemma name_div (p : Path) (c : string) : name (p // c) = c.
Proof. unfold name, Pathlib.div. apply last_last. Qed.

Lemma parent_div (p : Path) (c : string) : parent (p // c) = p.
Proof. unfold parent, Pathlib.div. apply removelast_last. Qed.

Lemma mkdir_parents_existing (deny : fsop -> bool) (fs : FS) (p : Path) :
  is_dir fs p = true -> mkdir_parents deny fs p = (Ok tt, fs).
Proof.
  unfold mkdir_parents, is_dir. intros Hdir.
  assert (Hstep : os_mkdir deny fs p = (Raise FileExistsError, fs)).
  { unfold os_mkdir. by destruct (lookup_node fs p). }
  destruct (List.length p); simpl; rewrite Hstep; unfold is_dir;
    by destruct (lookup_node fs p) as [[]|].
Qed.

Lemma read_file_exn (deny : fsop -> bool) (fs : FS) (p : Path) (e : exn) :
  read_file deny fs p = Raise e -> e ≠ JSONDecodeError.
Proof. unfold read_file. repeat case_match; congruence. Qed.

Lemma expand_exn (E : env) (config : pyval) (e : exn) :
  expand_downloads_path E config = Raise e -> e ≠ JSONDecodeError.
Proof.
  unfold expand_downloads_path, path_expanduser, bind_outcome, getitem, setitem.
  repeat case_match; congruence.
Qed.

Lemma expand_default (E : env) :
  expand_downloads_path E create_default_config =
  Ok (VDict [("initialized", VBool true);
             ("downloads_path", VPath (path_home E // "Downloads"));
             ("file_categories", default_categories)]).
Proof. reflexivity. Qed.


(** With the application data directory in place and a configuration file
    that is absent or not malformed, loading touches nothing. *)
Lemma load_config_keeps_fs (E : env) (w : world) :
  is_dir (fs w) (APP_DATA_DIR E) = true ->
  (forall text, read_file (deny E) (fs w) (CONFIG_FILE E) = Ok text ->
                json_loads E text <> Raise JSONDecodeError) ->
  fs (snd (load_config E w)) = fs w.
Proof.
  intros Hdir Hwell. unfold load_config. unfold_monad.
  rewrite (mkdir_parents_existing _ _ _ Hdir). cbn [fs logs].
  rewrite expand_default.
  destruct (path_exists (fs w) (CONFIG_FILE E)); cbn [negb fs logs]; [|done].
  destruct (read_file (deny E) (fs w) (CONFIG_FILE E)) as [text|e] eqn:Hread.
  - specialize (Hwell text eq_refl).
    destruct (json_loads E text) as [config|e] eqn:Hparse.
    + destruct (expand_downloads_path E config) as [v|e] eqn:Hexp; [done|].
      apply expand_exn in Hexp. by destruct e.
    + by destruct e.
  - apply read_file_exn in Hread. by destruct e.
Qed.

Section LogOnly.

Variable P : message -> Prop.











End LogOnly.






(** ** Dry run *)

(** C5 (amended).  Under dry run the steps of [sorter] that follow the
    loading of the configuration change nothing in the file system,
    whatever the configuration is; a whole dry run, loading included, leaves
    the file system (and so the saved configuration) unchanged when the
    application data directory exists and the configuration file is absent
    or is not rejected as malformed; and for each regular file the record
    logged is the plain would-move record when the resolved destination is
    the original one and the would-move-as record otherwise. *)
Theorem dry_run_mutates_nothing (E : env) :
  (forall config w, fs (snd (sorter_with E true config w)) = fs w) /\
  (forall w,
     is_dir (fs w) (APP_DATA_DIR E) = true ->
     (forall text, read_file (deny E) (fs w) (CONFIG_FILE E) = Ok text ->
                   json_loads E text <> Raise JSONDecodeError) ->
     fs (snd (sorter E true w)) = fs w) /\
  (forall categories download_path item category w,
     is_file (fs w) item = true ->
     classify_name E categories (name item) = Ok category ->
     let original_destination := download_path // category // name item in
     let final_destination := get_available_name (fs w) original_destination in
     process_item E true categories download_path item w =
     (Ok tt,
      {| fs := fs w;
         logs := logs w ++
           [if bool_decide (original_destination = final_destination)
            then DryWouldMove (name item) category
            else DryWouldMoveAs (name item) category (name final_destination)] |})).
Proof.
  split; [intros config w; apply keeps_sorter_with|]. split.
  - intros w Hdir Hwell. unfold sorter.
    pose proof (load_config_keeps_fs E w Hdir Hwell) as Hload.
    unfold mbind, M_bind. destruct (load_config E w) as [[config|e] w']; cbn [snd] in *.
    + by rewrite keeps_sorter_with.
    + done.
  - intros categories download_path item category w Hfile Hclass orig final.
    unfold process_item. unfold_monad. rewrite Hfile, Hclass. cbn [negb].
    rewrite name_div. fold orig. fold final.
    by destruct (bool_decide (orig = final)).
Qed.

Lemma dry_run_mutates_nothing_witness :
  is_dir (fs uninitialized) (APP_DATA_DIR plain_env) = true /\
  (forall text,
     read_file (deny plain_env) (fs uninitialized) (CONFIG_FILE plain_env) = Ok text ->
     json_loads plain_env text <> Raise JSONDecodeError) /\
  fs (snd (sorter plain_env true uninitialized)) = fs uninitialized /\
  is_file (fs uninitialized) (downloads // "b.JPG") = true /\
  classify_name plain_env default_categories (name (downloads // "b.JPG")) = Ok "Graphics" /\
  fs (snd (process_item plain_env true default_categories downloads
             (downloads // "b.JPG") uninitialized)) = fs uninitialized /\
  logs (snd (process_item plain_env true default_categories downloads
               (downloads // "b.JPG") uninitialized))
    = [DryWouldMove "b.JPG" "Graphics"].
Proof.
  assert (Hwell : forall text,
    read_file (deny plain_env) (fs uninitialized) (CONFIG_FILE plain_env) = Ok text ->
    json_loads plain_env text <> Raise JSONDecodeError).
  { intros text Hread. vm_compute in Hread. injection Hread as <-.
    vm_compute. discriminate. }
  assert (Hfile : is_file (fs uninitialized) (downloads // "b.JPG") = true)
    by (vm_compute; reflexivity).
  assert (Hclass : classify_name plain_env default_categories (name (downloads // "b.JPG"))
                   = Ok "Graphics") by (vm_compute; reflexivity).
  pose proof (proj2 (proj2 (dry_run_mutates_nothing plain_env))
                default_categories downloads (downloads // "b.JPG") "Graphics"
                uninitialized Hfile Hclass) as Hitem.
  cbv zeta in Hitem.
  split; [reflexivity|]. split; [exact Hwell|]. split.
  { apply (proj1 (proj2 (dry_run_mutates_nothing plain_env)) uninitialized);
      [reflexivity | exact Hwell]. }
  split; [exact Hfile|]. split; [exact Hclass|].
  rewrite Hitem. split; [reflexivity|]. vm_compute. reflexivity.
Defined.

Lemma dry_run_repairs_corrupted_config :
  let w' := snd (sorter plain_env true corrupted) in
  fs w' <> fs corrupted /\
  fs corrupted !! (app_data_dir // "config.json.bak") = None /\
  fs w' !! (app_data_dir // "config.json.bak") = Some (File corrupted_text) /\
  fs corrupted !! config_file = Some (File corrupted_text) /\
  fs w' !! config_file <> Some (File corrupted_text).
Proof.
  cbv zeta. split; [|split; [|split; [|split]]].
  - intros Heq.
    apply (f_equal (fun m : FS => m !! (app_data_dir // "config.json.bak"))) in Heq.
    vm_compute in Heq. discriminate.
  - vm_compute. reflexivity.
  - vm_compute. reflexivity.
  - vm_compute. reflexivity.
  - vm_compute. discriminate.
Qed.

(** ** Failing moves *)

Lemma os_rename_denied (deny : fsop -> bool) (fs : FS) (src dst : Path) :
  deny (OpRename src dst) = true ->
  exists e, os_rename deny fs src dst = (Raise e, fs).
Proof.
  intros Hdeny. unfold os_rename. rewrite Hdeny. repeat case_match; eauto.
Qed.

Lemma shutil_move_denied (deny : fsop -> bool) (fs : FS) (src dst : Path) :
  is_file fs src = true -> is_dir fs dst = false -> src <> dst ->
  deny (OpRename src dst) = true -> deny (OpRead src) = true ->
  shutil_move deny fs src dst = (Raise PermissionError, fs).
Proof.
  intros Hsrc Hdst Hne Hrename Hread.
  unfold shutil_move. rewrite Hdst. cbn [andb].
  destruct (os_rename_denied deny fs src dst Hrename) as [e ->].
  unfold copy2, read_file. rewrite Hdst, bool_decide_eq_false_2 by done.
  unfold is_file in Hsrc. destruct (lookup_node fs src) as [[c|]|]; try done.
  by rewrite Hread.
Qed.

Lemma process_item_returns (E : env) (categories : pyval)
    (sets : string -> list string) (download_path item : Path) (w : world) :
  table_of categories sets ->
  fst (process_item E false categories download_path item w) = Ok tt.
Proof.
  intros Htable. unfold process_item, classify_name. unfold_monad.
  destruct (classify_total categories sets
              (str_lower E (suffix_of_name (name item))) Htable) as [category ->].
  destruct (is_file (fs w) item); cbn [negb]; [|done].
  cbn [fs logs].
  match goal with |- context [shutil_move ?d ?f ?a ?b] =>
    destruct (shutil_move d f a b) as [[[]|e] fs'] end; [|done].
  by case_bool_decide.
Qed.

Lemma organize_loop_returns (E : env) (categories : pyval)
    (sets : string -> list string) (download_path : Path) (items : list Path)
    (w : world) :
  table_of categories sets ->
  fst (for_each items (process_item E false categories download_path) w) = Ok tt.
Proof.
  intros Htable. revert w. induction items as [|item items IH]; intros w; [done|].
  cbn [for_each]. unfold mbind, M_bind.
  pose proof (process_item_returns E categories sets download_path item w Htable) as Hitem.
  destruct (process_item E false categories download_path item w) as [[[]|e] w'];
    cbn [fst] in Hitem; [apply IH | done].
Qed.


(** C6.  In a run that is not a dry run, when the move of a file raises,
    the exception is caught and logged, the step for that file ends
    normally, and the loop goes on with the remaining entries; with a
    category table that classifies every extension, the loop over the
    entries always ends normally, whatever happens to the moves. *)
Theorem move_failure_continues (E : env) (categories : pyval)
    (download_path : Path) :
  (forall item rest w category e fs',
     is_file (fs w) item = true ->
     classify_name E categories (name item) = Ok category ->
     shutil_move (deny E) (fs w) item
       (get_available_name (fs w) (download_path // category // name item))
       = (Raise e, fs') ->
     process_item E false categories download_path item w =
       (Ok tt, {| fs := fs'; logs := logs w ++ [MoveError (name item) e] |}) /\
     for_each (item :: rest) (process_item E false categories download_path) w =
     for_each rest (process_item E false categories download_path)
       {| fs := fs'; logs := logs w ++ [MoveError (name item) e] |}) /\
  (forall extension_set items w,
     table_of categories extension_set ->
     fst (for_each items (process_item E false categories download_path) w) = Ok tt).
Proof.
  split.
  - intros item rest w category e fs' Hfile Hclass Hmove.
    assert (Hitem : process_item E false categories download_path item w =
      (Ok tt, {| fs := fs'; logs := logs w ++ [MoveError (name item) e] |})).
    { unfold process_item. unfold_monad. rewrite Hfile, Hclass. cbn [negb fs logs].
      by rewrite Hmove. }
    split; [done|].
    cbn [for_each]. unfold mbind at 1, M_bind at 1. by rewrite Hitem.
  - intros extension_set items w. apply organize_loop_returns.
Qed.

Lemma move_failure_continues_witness :
  is_file (fs sorted_once) (downloads // "a.zip") = true /\
  classify_name denying_env default_categories "a.zip" = Ok "Archives" /\
  shutil_move (deny denying_env) (fs sorted_once) (downloads // "a.zip")
    (downloads // "Archives" // "a.zip") = (Raise PermissionError, fs sorted_once) /\
  for_each two_items (process_item denying_env false default_categories downloads) sorted_once =
  for_each [downloads // "b.JPG"] (process_item denying_env false default_categories downloads)
    {| fs := fs sorted_once; logs := [MoveError "a.zip" PermissionError] |} /\
  logs (snd (for_each two_items
               (process_item denying_env false default_categories downloads) sorted_once))
    = [MoveError "a.zip" PermissionError; Moved "b.JPG" "Graphics"] /\
  table_of default_categories default_sets /\
  fst (for_each two_items
         (process_item denying_env false default_categories downloads) sorted_once)
    = Ok tt.
Proof.
  assert (Hfile : is_file (fs sorted_once) (downloads // "a.zip") = true)
    by (vm_compute; reflexivity).
  assert (Hclass : classify_name denying_env default_categories (name (downloads // "a.zip"))
                   = Ok "Archives") by (vm_compute; reflexivity).
  assert (Hname : get_available_name (fs sorted_once)
                    (downloads // "Archives" // name (downloads // "a.zip"))
                  = downloads // "Archives" // "a.zip") by (vm_compute; reflexivity).
  assert (Hmove : shutil_move (deny denying_env) (fs sorted_once) (downloads // "a.zip")
                    (downloads // "Archives" // "a.zip")
                  = (Raise PermissionError, fs sorted_once)).
  { apply shutil_move_denied; [exact Hfile | vm_compute; reflexivity | discriminate
                              | vm_compute; reflexivity | vm_compute; reflexivity]. }
  split; [exact Hfile|]. split; [exact Hclass|]. split; [exact Hmove|].
  split; [|split; [vm_compute; reflexivity|split; [exact default_table|]]].
  2: exact (proj2 (move_failure_continues denying_env default_categories downloads)
              default_sets two_items sorted_once default_table).
  refine (proj2 (proj1 (move_failure_continues denying_env default_categories downloads)
           (downloads // "a.zip") [downloads // "b.JPG"] sorted_once "Archives"
           PermissionError (fs sorted_once) Hfile Hclass _)).
  rewrite Hname. exact Hmove.
Defined.

(** ** The first run and the literal category names *)

Lemma div_not_root (p : Path) (n : string) : p // n <> [].
Proof. unfold Pathlib.div. by destruct p. Qed.

Lemma lookup_node_insert (fs : FS) (p q : Path) (x : node) :
  p <> [] ->
  lookup_node (<[p := x]> fs) q = if decide (p = q) then Some x else lookup_node fs q.
Proof.
  intros Hp. unfold lookup_node. destruct q as [|c q].
  - by rewrite decide_False.
  - apply lookup_insert.
Qed.

Lemma grows_dirs_refl (fs : FS) : grows_dirs fs fs.
Proof. by intros q. Qed.

Lemma grows_dirs_trans (fs1 fs2 fs3 : FS) :
  grows_dirs fs1 fs2 -> grows_dirs fs2 fs3 -> grows_dirs fs1 fs3.
Proof. intros H12 H23 q. destruct (H12 q), (H23 q). split; auto. Qed.

Lemma grows_dirs_insert_dir (fs : FS) (p : Path) :
  p <> [] -> grows_dirs fs (<[p := Dir]> fs).
Proof.
  intros Hp q. unfold is_dir, is_file. rewrite lookup_node_insert by done.
  destruct (decide (p = q)); by split.
Qed.

Lemma mkdir_exist_ok_creates (deny : fsop -> bool) (fs : FS) (p : Path) :
  p <> [] -> is_file fs p = false -> is_dir fs (parent p) = true ->
  deny (OpMkdir p) = false ->
  exists fs', mkdir_exist_ok deny fs p = (Ok tt, fs') /\
              grows_dirs fs fs' /\ is_dir fs' p = true.
Proof.
  intros Hp Hfile Hparent Hdeny.
  unfold mkdir_exist_ok, os_mkdir. unfold is_file, is_dir in Hfile, Hparent.
  destruct (lookup_node fs p) as [[c|]|] eqn:Hlook; [done | |].
  - exists fs. unfold is_dir. rewrite Hlook. eauto using grows_dirs_refl.
  - destruct (lookup_node fs (parent p)) as [[c|]|]; try done.
    rewrite Hdeny. exists (<[p := Dir]> fs).
    split; [done|]. split; [by apply grows_dirs_insert_dir|].
    unfold is_dir. by rewrite lookup_node_insert, decide_True.
Qed.

Lemma create_folders_creates (E : env) (download_path : Path)
    (folder_names : list string) (w : world) :
  is_dir (fs w) download_path = true ->
  Forall (fun n => is_file (fs w) (download_path // n) = false /\
                   deny E (OpMkdir (download_path // n)) = false) folder_names ->
  exists w', create_folders E false download_path folder_names w = (Ok tt, w') /\
             grows_dirs (fs w) (fs w') /\
             forall n, n ∈ folder_names -> is_dir (fs w') (download_path // n) = true.
Proof.
  revert w. induction folder_names as [|n names IH]; intros w Hdl Hall.
  - exists w. split; [done|]. split; [apply grows_dirs_refl|]. by intros n ?%elem_of_nil.
  - apply Forall_cons in Hall as [[Hfile Hdeny] Hall].
    destruct (mkdir_exist_ok_creates (deny E) (fs w) (download_path // n))
      as (fs1 & Hmk & Hgrow & Hdir);
      [apply div_not_root | done | by rewrite parent_div | done |].
    set (w1 := {| fs := fs1; logs := logs w ++ [CreatedFolder n] |}).
    destruct (IH w1) as (w' & Hrun & Hgrow' & Hdirs).
    { by apply Hgrow. }
    { eapply Forall_impl; [exact Hall|]. intros m [Hm ?]. split; [|done]. by apply Hgrow. }
    exists w'. split; [|split].
    + unfold create_folders in *. cbn [for_each]. unfold_monad.
      rewrite Hmk. exact Hrun.
    + eapply grows_dirs_trans; [exact Hgrow | exact Hgrow'].
    + intros m [->|Hm]%elem_of_cons; [by apply Hgrow' | by apply Hdirs].
Qed.

Lemma write_json_grows (deny : fsop -> bool) (fs : FS) (p : Path) (o : pyval) :
  p <> [] -> forall q, is_dir fs q = true -> is_dir (snd (write_json deny fs p o)) q = true.
Proof.
  intros Hp q Hq. unfold write_json, open_w.
  destruct (lookup_node fs p) as [[c|]|] eqn:Hlook; [| done |];
    (destruct (lookup_node fs (parent p)) as [[c'|]|]; [done | | done];
     destruct (deny (OpWrite p)); [done|];
     destruct (Json.iterencode o 0) as [text ok]; cbn [snd];
     unfold is_dir in *; rewrite !lookup_node_insert by done;
     destruct (decide (p = q)) as [<-|]; [by rewrite Hlook in Hq | done]).
Qed.

Lemma save_config_grows (E : env) (config : pyval) (download_path : Path) (w : world) :
  fst (save_config E config download_path w) = Ok tt /\
  forall q, is_dir (fs w) q = true ->
            is_dir (fs (snd (save_config E config download_path w))) q = true.
Proof.
  unfold save_config. unfold_monad.
  destruct (setitem config _ _) as [c|e]; [|done].
  pose proof (write_json_grows (deny E) (fs w) (CONFIG_FILE E) c (div_not_root _ _)) as Hgrow.
  destruct (write_json (deny E) (fs w) (CONFIG_FILE E) c) as [[[]|e] fs'];
    cbn [fst snd fs] in *; done.
Qed.

Lemma first_run_creates (E : env) (config_items d : list (string * pyval))
    (download_path : Path) (w : world) :
  is_dir (fs w) download_path = true ->
  Forall (fun n => is_file (fs w) (download_path // n) = false /\
                   deny E (OpMkdir (download_path // n)) = false) (map fst d) ->
  fst (first_run E false (VDict config_items) (VDict d) download_path w) = Ok tt /\
  forall n, n ∈ map fst d ->
    is_dir (fs (snd (first_run E false (VDict config_items) (VDict d) download_path w)))
           (download_path // n) = true.
Proof.
  intros Hdl Hall.
  set (w0 := {| fs := fs w; logs := logs w ++ [FirstRunDetected] |}).
  destruct (create_folders_creates E download_path (map fst d) w0 Hdl Hall)
    as (w' & Hrun & _ & Hdirs).
  unfold first_run. unfold_monad. cbn [keys setitem negb]. fold w0. rewrite Hrun.
  match goal with |- context [save_config E ?c ?p ?w] =>
    destruct (save_config_grows E c p w) as [Hok Hgrow] end.
  split; [exact Hok|]. intros n Hn. by apply Hgrow, Hdirs.
Qed.

Lemma classify_range (categories : pyval) (ext c : string) :
  classify categories ext = Ok c -> c ∈ priority ++ [fallback].
Proof.
  unfold classify, bind_outcome.
  repeat (destruct (in_category categories _ ext) as [[|]|?]; try done);
    intros [= <-]; set_solver.
Qed.

Lemma classify_four_keys (c1 c2 : pyval) (ext : string) :
  (forall k, k ∈ priority -> getitem c1 k = getitem c2 k) ->
  classify c1 ext = classify c2 ext.
Proof.
  intros Hsame. unfold classify, in_category.
  rewrite !Hsame by set_solver. done.
Qed.

Lemma classify_missing_key (categories : pyval) (ext : string)
    (pre post : list string) (k : string) :
  priority = pre ++ k :: post ->
  (forall c, c ∈ pre -> in_category categories c ext = Ok false) ->
  getitem categories k = Raise (KeyError k) ->
  classify categories ext = Raise (KeyError k).
Proof.
  intros Hsplit Hpre Hmiss. unfold priority in Hsplit.
  assert (Hk : in_category categories k ext = Raise (KeyError k)).
  { unfold in_category. by rewrite Hmiss. }
  unfold classify.
  destruct pre as [|a [|b [|c [|d pre]]]]; simplify_eq/=.
  - by rewrite Hk.
  - rewrite (Hpre "Archives") by set_solver. cbn. by rewrite Hk.
  - rewrite (Hpre "Archives"), (Hpre "Documents") by set_solver. cbn. by rewrite Hk.
  - rewrite (Hpre "Archives"), (Hpre "Documents"), (Hpre "Graphics") by set_solver.
    cbn. by rewrite Hk.
  - by destruct pre.
Qed.

(** C10 (amended).  Classification looks up the four literal keys
    Archives, Documents, Graphics and Programs only, and every result is one
    of these or the literal name Others, which is never looked up.  For a
    category table with further names, the first run creates a folder for
    every name of the table, but no file is classified into a folder other
    than the five.  When one of the four keys is absent and no earlier
    category contains the extension, classification raises [KeyError] for
    that key. *)
Theorem classification_uses_four_literal_keys (E : env) :
  (forall categories extension c,
     classify categories extension = Ok c ->
     c ∈ ["Archives"; "Documents"; "Graphics"; "Programs"; "Others"]) /\
  (forall c1 c2 extension,
     (forall k, k ∈ priority -> getitem c1 k = getitem c2 k) ->
     classify c1 extension = classify c2 extension) /\
  (forall config_items d download_path w,
     is_dir (fs w) download_path = true ->
     Forall (fun n => simple_name n = true /\
                      is_file (fs w) (download_path // n) = false /\
                      deny E (OpMkdir (download_path // n)) = false) (map fst d) ->
     let r := first_run E false (VDict config_items) (VDict d) download_path w in
     fst r = Ok tt /\
     forall n, n ∈ map fst d -> is_dir (fs (snd r)) (download_path // n) = true) /\
  (forall categories extension pre k post,
     priority = pre ++ k :: post ->
     (forall c, c ∈ pre -> in_category categories c extension = Ok false) ->
     getitem categories k = Raise (KeyError k) ->
     classify categories extension = Raise (KeyError k)).
Proof.
  split; [|split; [|split]].
  - intros categories extension c. apply classify_range.
  - apply classify_four_keys.
  - intros config_items d download_path w Hdl Hall. cbv zeta.
    apply first_run_creates; [done|].
    eapply Forall_impl; [exact Hall|]. by intros n (_ & ? & ?).
  - intros categories extension pre k post. apply classify_missing_key.
Qed.

Lemma classification_uses_four_literal_keys_witness :
  (is_dir (fs with_music) downloads = true /\
   Forall (fun n => simple_name n = true /\
                    is_file (fs with_music) (downloads // n) = false /\
                    deny plain_env (OpMkdir (downloads // n)) = false)
          (map fst music_items) /\
   is_dir (fs (snd (first_run plain_env false (VDict []) (VDict music_items)
                      downloads with_music))) (downloads // "Music") = true /\
   classify categories_with_music ".mp3" = Ok "Others") /\
  (priority = ["Archives"; "Documents"; "Graphics"] ++ "Programs" :: [] /\
   (forall c, c ∈ ["Archives"; "Documents"; "Graphics"] ->
      in_category categories_without_programs c ".xyz" = Ok false) /\
   getitem categories_without_programs "Programs" = Raise (KeyError "Programs") /\
   classify categories_without_programs ".xyz" = Raise (KeyError "Programs")).
Proof.
  assert (Hall : Forall (fun n => simple_name n = true /\
                    is_file (fs with_music) (downloads // n) = false /\
                    deny plain_env (OpMkdir (downloads // n)) = false)
          (map fst music_items)).
  { repeat constructor; vm_compute; reflexivity. }
  assert (Hdl : is_dir (fs with_music) downloads = true) by (vm_compute; reflexivity).
  assert (Hpre : forall c, c ∈ ["Archives"; "Documents"; "Graphics"] ->
      in_category categories_without_programs c ".xyz" = Ok false).
  { intros c Hc. repeat (apply elem_of_cons in Hc as [->|Hc]; [reflexivity|]).
    by apply elem_of_nil in Hc. }
  split.
  - split; [exact Hdl|]. split; [exact Hall|]. split; [|reflexivity].
    apply (proj1 (proj2 (proj2 (classification_uses_four_literal_keys plain_env)))
             [] music_items downloads with_music Hdl Hall).
    vm_compute. set_solver.
  - split; [reflexivity|]. split; [exact Hpre|]. split; [reflexivity|].
    apply (proj2 (proj2 (proj2 (classification_uses_four_literal_keys plain_env)))
             categories_without_programs ".xyz"
             ["Archives"; "Documents"; "Graphics"] "Programs" []);
      [reflexivity | exact Hpre | reflexivity].
Defined.

Lemma missing_others_raises_nothing :
  getitem categories_without_others "Others" = Raise (KeyError "Others") /\
  classify categories_without_others ".xyz" = Ok "Others" /\
  fst (sorter plain_env false no_others) = Ok tt /\
  logs (snd (sorter plain_env false no_others)) = [Moved "notes.xyz" "Others"] /\
  is_file (fs (snd (sorter plain_env false no_others)))
          (downloads // "Others" // "notes.xyz") = true.
Proof.
  split; [reflexivity|]. split; [reflexivity|].
  split; [vm_compute; reflexivity|]. split; vm_compute; reflexivity.
Qed.

(** ** Fresh and corrupted configurations *)

Lemma load_config_fresh (E : env) (w : world) :
  is_dir (fs w) (APP_DATA_DIR E) = true ->
  path_exists (fs w) (CONFIG_FILE E) = false ->
  load_config E w =
  (Ok (VDict [("initialized", VBool true);
              ("downloads_path", VPath (path_home E // "Downloads"));
              ("file_categories", default_categories)]),
   {| fs := fs w; logs := logs w ++ [NoConfigFound] |}).
Proof.
  intros Hdir Hnone. unfold load_config. unfold_monad.
  rewrite (mkdir_parents_existing _ _ _ Hdir). cbn [fs logs].
  by rewrite Hnone.
Qed.

(** On a fresh configuration the first-run block is skipped: the run goes
    straight to the loop over the directory entries. *)
Lemma fresh_config_skips_first_run (E : env) (dry_run : bool) (w : world) :
  is_dir (fs w) (APP_DATA_DIR E) = true ->
  path_exists (fs w) (CONFIG_FILE E) = false ->
  path_exists (fs w) (path_home E // "Downloads") = true ->
  sorter E dry_run w =
  organize E dry_run default_categories (path_home E // "Downloads")
    {| fs := fs w; logs := logs w ++ [NoConfigFound] |}.
Proof.
  intros Hdir Hnone Hdl. unfold sorter. unfold mbind at 1, M_bind at 1.
  rewrite (load_config_fresh E w Hdir Hnone).
  unfold sorter_with. unfold_monad. cbn [getitem assoc String.eqb Ascii.eqb Bool.eqb as_path dict_get fs logs].
  rewrite Hdl. reflexivity.
Qed.

Lemma config_file_name (E : env) :
  with_suffix (CONFIG_FILE E) ".json.bak" = APP_DATA_DIR E // "config.json.bak".
Proof.
  unfold with_suffix, CONFIG_FILE, stem. by rewrite parent_div, name_div.
Qed.

Lemma div_inj (p q : Path) (a b : string) : p // a = q // b -> p = q /\ a = b.
Proof. unfold Pathlib.div. apply app_inj_tail. Qed.

Lemma div_ne_self (p : Path) (a : string) : p // a <> p.
Proof.
  unfold Pathlib.div. intros Heq. apply (f_equal List.length) in Heq.
  rewrite length_app in Heq. simpl in Heq. lia.
Qed.

Lemma div_div_ne (p : Path) (a b c : string) : p // a // b <> p // c.
Proof. intros [Heq _]%div_inj. by apply div_ne_self in Heq. Qed.

(** [copy2] leaves alone every path other than the one it writes. *)
Lemma copy2_other (deny : fsop -> bool) (fs : FS) (src dst q : Path) (n : string) :
  dst = parent dst // n ->
  q <> dst -> q <> dst // name src ->
  lookup_node (snd (copy2 deny fs src dst)) q = lookup_node fs q.
Proof.
  intros Hdst Hq1 Hq2. unfold copy2, open_w.
  set (target := if is_dir fs dst then dst // name src else dst).
  assert (Htarget : target <> [] /\ q <> target).
  { unfold target. destruct (is_dir fs dst); split; try done.
    - apply div_not_root.
    - rewrite Hdst. apply div_not_root. }
  destruct Htarget as [Hroot Hne].
  repeat case_match; simplify_eq/=; try done;
    rewrite !lookup_node_insert by done; by rewrite !decide_False by done.
Qed.

Lemma div_div_ne_self (p : Path) (a b : string) : p // a // b <> p.
Proof.
  unfold Pathlib.div. intros Heq. apply (f_equal List.length) in Heq.
  rewrite !length_app in Heq. simpl in Heq. lia.
Qed.

Lemma backup_keeps_config (E : env) (fs0 : FS) (q : Path) :
  q = CONFIG_FILE E \/ q = APP_DATA_DIR E ->
  lookup_node
    (snd (copy2 (deny E) fs0 (CONFIG_FILE E) (APP_DATA_DIR E // "config.json.bak"))) q
  = lookup_node fs0 q.
Proof.
  intros Hq. apply (copy2_other _ _ _ _ _ "config.json.bak").
  - by rewrite parent_div.
  - destruct Hq as [-> | ->].
    + unfold CONFIG_FILE. by intros [_ ?]%div_inj.
    + intros Heq. symmetry in Heq. by apply div_ne_self in Heq.
  - destruct Hq as [-> | ->].
    + unfold CONFIG_FILE. intros Heq. symmetry in Heq. by apply div_div_ne in Heq.
    + intros Heq. symmetry in Heq. by apply div_div_ne_self in Heq.
Qed.

(** Whatever the platform: when the configuration file is rejected as
    malformed, the attempt to write the default configuration raises
    [TypeError], the file is left with the text written until then, and
    the record that announces the new configuration is not logged. *)
Lemma repair_leaves_truncated_file (E : env) (w : world) (text : string) :
  is_dir (fs w) (APP_DATA_DIR E) = true ->
  lookup_node (fs w) (CONFIG_FILE E) = Some (File text) ->
  deny E (OpRead (CONFIG_FILE E)) = false ->
  deny E (OpWrite (CONFIG_FILE E)) = false ->
  json_loads E text = Raise JSONDecodeError ->
  fst (load_config E w) = expand_downloads_path E create_default_config /\
  lookup_node (fs (snd (load_config E w))) (CONFIG_FILE E)
    = Some (File truncated_text) /\
  exists backup_record,
    logs (snd (load_config E w))
    = logs w ++ [ConfigCorrupted; backup_record; UnexpectedLoadError TypeError].
Proof.
  intros Hdir Hfile Hread Hwrite Hparse.
  unfold load_config. unfold_monad.
  rewrite (mkdir_parents_existing _ _ _ Hdir). cbn [fs logs].
  unfold path_exists, read_file.
  repeat (cbv beta iota; cbn [fs logs negb]; rewrite ?Hfile, ?Hread, ?Hparse). unfold repair_config, backup_corrupted. unfold_monad.
  cbn [fs logs]. rewrite config_file_name.
  pose proof (backup_keeps_config E (fs w) (CONFIG_FILE E) (or_introl eq_refl)) as Hcfg.
  pose proof (backup_keeps_config E (fs w) (APP_DATA_DIR E) (or_intror eq_refl)) as Happ.
  rewrite Hfile in Hcfg. unfold is_dir in Hdir.
  destruct (lookup_node (fs w) (APP_DATA_DIR E)) as [[|]|] eqn:Happ0; try done.
  assert (Hdump : forall fs1 : FS,
    lookup_node fs1 (CONFIG_FILE E) = Some (File text) ->
    lookup_node fs1 (APP_DATA_DIR E) = Some Dir ->
    write_json (deny E) fs1 (CONFIG_FILE E)
      (VDict [("initialized", VBool true);
              ("downloads_path", VPath (path_home E // "Downloads"));
              ("file_categories", default_categories)])
    = (Raise TypeError,
       <[CONFIG_FILE E := File truncated_text]> (<[CONFIG_FILE E := File ""]> fs1))).
  { intros fs1 H1 H2. unfold write_json, open_w.
    rewrite H1. unfold CONFIG_FILE at 1. rewrite parent_div, H2, Hwrite.
    reflexivity. }
  destruct (copy2 (deny E) (fs w) (CONFIG_FILE E) (APP_DATA_DIR E // "config.json.bak"))
    as [[[]|e] fs1]; cbn [snd fs logs] in *;
    rewrite expand_default; cbn [fs logs];
    rewrite (Hdump fs1 Hcfg Happ); cbn [fst snd fs logs];
    (split; [done|]; split;
      [ rewrite lookup_node_insert by apply div_not_root; by rewrite decide_True
      | eexists; rewrite <- !app_assoc; reflexivity ]).
Qed.

Lemma default_config_not_serializable (E : env) :
  exists v, expand_downloads_path E create_default_config = Ok v /\
            Json.iterencode v 0 = (truncated_text, false).
Proof. eexists. split; [reflexivity|]. vm_compute. reflexivity. Qed.

(** C1 (fails on the code).  Without a configuration file, a run that is
    not a dry run loads the default configuration, whose [initialized] is
    already true, and skips the first-run block: no category folder is
    created, no configuration file is written, and the move of the waiting
    file fails because its folder is missing. *)
Theorem fresh_run_creates_no_folders :
  let r := sorter plain_env false fresh in
  path_exists (fs fresh) config_file = false /\
  fst r = Ok tt /\
  logs (snd r) = [NoConfigFound; MoveError "a.zip" FileNotFoundError] /\
  forallb (fun c => negb (path_exists (fs (snd r)) (downloads // c))) category_names = true /\
  path_exists (fs (snd r)) config_file = false /\
  is_file (fs (snd r)) (downloads // "a.zip") = true.
Proof. cbv zeta. repeat split; vm_compute; reflexivity. Qed.

(** C2 (fails on the code).  When the configuration file is malformed, the
    backup receives the original bytes and the default configuration is
    returned, but the file that is written is not a fresh default
    configuration: the dump stops with [TypeError] at the [Path] object
    stored under [downloads_path], and the file is left with the text
    written until then. *)
Theorem corrupted_config_is_left_truncated :
  let r := load_config plain_env corrupted in
  fs corrupted !! config_file = Some (File corrupted_text) /\
  json_loads plain_env corrupted_text = Raise JSONDecodeError /\
  fst r = expand_downloads_path plain_env create_default_config /\
  fs (snd r) !! backup_file = Some (File corrupted_text) /\
  fs (snd r) !! config_file = Some (File truncated_text) /\
  logs (snd r) = [ConfigCorrupted; BackupSaved backup_file; UnexpectedLoadError TypeError] /\
  Str.is_prefix truncated_text (text_of default_as_saved) = true /\
  truncated_text <> text_of default_as_saved.
Proof.
  cbv zeta. repeat split; try (vm_compute; reflexivity).
  vm_compute. discriminate.
Qed.

(* ===================================================================== *)
(** * Further facts *)
(* ===================================================================== *)

Import Cases.

(** ** Loading the configuration *)

Lemma world_eta (w : world) : {| fs := fs w; logs := logs w |} = w.
Proof. by destruct w. Qed.

Lemma assoc_set_same {A} (k : string) (v : A) (d : list (string * A)) :
  assoc k (assoc_set k v d) = Some v.
Proof.
  induction d as [|[k' v'] d IH]; cbn [assoc assoc_set].
  - by rewrite String.eqb_refl.
  - destruct (String.eqb k k') eqn:Hk; cbn [assoc]; by rewrite ?String.eqb_refl, ?Hk.
Qed.

Lemma assoc_set_other {A} (k k' : string) (v : A) (d : list (string * A)) :
  k <> k' -> assoc k' (assoc_set k v d) = assoc k' d.
Proof.
  intros Hne. induction d as [|[k0 v0] d IH]; cbn [assoc assoc_set].
  - destruct (String.eqb_spec k' k); [congruence | done].
  - destruct (String.eqb_spec k k0) as [->|]; cbn [assoc].
    + destruct (String.eqb_spec k' k0); [congruence | done].
    + by rewrite IH.
Qed.

Lemma assoc_set_twice {A} (k : string) (v v' : A) (d : list (string * A)) :
  assoc_set k v (assoc_set k v' d) = assoc_set k v d.
Proof.
  induction d as [|[k0 v0] d IH]; cbn [assoc_set].
  - by rewrite String.eqb_refl.
  - destruct (String.eqb k k0) eqn:Hk; cbn [assoc_set];
      by rewrite ?String.eqb_refl, ?Hk, ?IH.
Qed.

Lemma assoc_set_id {A} (k : string) (v : A) (d : list (string * A)) :
  assoc k d = Some v -> assoc_set k v d = d.
Proof.
  induction d as [|[k0 v0] d IH]; cbn [assoc assoc_set]; [done|].
  destruct (String.eqb_spec k k0) as [->|]; [by intros [= ->] |].
  intros Hd. by rewrite IH.
Qed.

(** The start of [load_config] when the application data directory is in
    place and the configuration file can be read. *)
Lemma load_config_read (E : env) (w : world) (text : string) :
  is_dir (fs w) (APP_DATA_DIR E) = true ->
  lookup_node (fs w) (CONFIG_FILE E) = Some (File text) ->
  deny E (OpRead (CONFIG_FILE E)) = false ->
  load_config E w =
  match json_loads E text with
  | Ok config =>
      match expand_downloads_path E config with
      | Ok v => (Ok v, w)
      | Raise e =>
          (expand_downloads_path E create_default_config,
           {| fs := fs w; logs := logs w ++ [UnexpectedLoadError e] |})
      end
  | Raise JSONDecodeError =>
      try_except (repair_config E)
        (fun e => _ ← logger (UnexpectedLoadError e);
                  lift (expand_downloads_path E create_default_config)) w
  | Raise e =>
      (expand_downloads_path E create_default_config,
       {| fs := fs w; logs := logs w ++ [UnexpectedLoadError e] |})
  end.
Proof.
  intros Hdir Hfile Hread.
  unfold load_config. unfold_monad.
  rewrite (mkdir_parents_existing _ _ _ Hdir).
  unfold path_exists, read_file.
  repeat (cbv beta iota; cbn [fs logs negb]; rewrite ?Hfile, ?Hread).
  rewrite world_eta.
  destruct (json_loads E text) as [config|e].
  - destruct (expand_downloads_path E config) as [v|e] eqn:Hexp; [done|].
    apply expand_exn in Hexp. by destruct e.
  - by destruct e.
Qed.

(** X1.  When the configuration file can be read and parses to a dictionary
    whose [downloads_path] is a string that [expanduser] expands to a path
    (it names no home directory that is unknown), [load_config] returns
    that dictionary with the string replaced by the expanded [Path] object;
    nothing is written and nothing is logged. *)
Theorem load_config_reads_config (E : env) (w : world) (text s : string)
    (d : list (string * pyval)) (p : Path) :
  is_dir (fs w) (APP_DATA_DIR E) = true ->
  lookup_node (fs w) (CONFIG_FILE E) = Some (File text) ->
  deny E (OpRead (CONFIG_FILE E)) = false ->
  json_loads E text = Ok (VDict d) ->
  assoc "downloads_path" d = Some (VStr s) ->
  path_expanduser E s = Ok p ->
  load_config E w =
  (Ok (VDict (assoc_set "downloads_path" (VPath p) d)), w).
Proof.
  intros Hdir Hfile Hread Hparse Hpath Hexpand.
  rewrite (load_config_read E w text Hdir Hfile Hread), Hparse.
  unfold expand_downloads_path, bind_outcome, getitem.
  by rewrite Hpath, Hexpand.
Qed.

Lemma load_config_reads_config_witness :
  is_dir (fs uninitialized) (APP_DATA_DIR plain_env) = true /\
  lookup_node (fs uninitialized) (CONFIG_FILE plain_env)
    = Some (File (text_of (config_value false default_categories))) /\
  deny plain_env (OpRead (CONFIG_FILE plain_env)) = false /\
  json_loads plain_env (text_of (config_value false default_categories))
    = Ok (config_value false default_categories) /\
  path_expanduser plain_env "/home/u/Downloads" = Ok downloads /\
  load_config plain_env uninitialized = (Ok (VDict loaded_items), uninitialized).
Proof.
  assert (Hfile : lookup_node (fs uninitialized) (CONFIG_FILE plain_env)
            = Some (File (text_of (config_value false default_categories))))
    by (vm_compute; reflexivity).
  assert (Hparse : json_loads plain_env (text_of (config_value false default_categories))
            = Ok (config_value false default_categories))
    by (vm_compute; reflexivity).
  split; [reflexivity|]. split; [exact Hfile|]. split; [reflexivity|].
  split; [exact Hparse|]. split; [reflexivity|].
  exact (load_config_reads_config plain_env uninitialized
           (text_of (config_value false default_categories)) "/home/u/Downloads"
           _ downloads eq_refl Hfile eq_refl Hparse eq_refl eq_refl).
Defined.

(** X2.  When the configuration file is there but cannot be read, or the
    parser raises something other than [JSONDecodeError], or the parsed
    value has no usable [downloads_path] (it is not a dictionary, the key is
    missing, the value is not a string, or it is a string that names a home
    directory that is unknown), [load_config] logs the error and
    returns the default configuration in memory; the file system is left as
    it is: no backup, no new file. *)
Theorem load_config_falls_back (E : env) (w : world) (e : exn) :
  is_dir (fs w) (APP_DATA_DIR E) = true ->
  path_exists (fs w) (CONFIG_FILE E) = true ->
  read_file (deny E) (fs w) (CONFIG_FILE E) = Raise e \/
  (exists text,
     read_file (deny E) (fs w) (CONFIG_FILE E) = Ok text /\
     (json_loads E text = Raise e /\ e <> JSONDecodeError \/
      exists config, json_loads E text = Ok config /\
                     expand_downloads_path E config = Raise e)) ->
  load_config E w =
  (Ok (VDict [("initialized", VBool true);
              ("downloads_path", VPath (path_home E // "Downloads"));
              ("file_categories", default_categories)]),
   {| fs := fs w; logs := logs w ++ [UnexpectedLoadError e] |}).
Proof.
  intros Hdir Hpresent Hfail.
  unfold load_config. unfold_monad.
  rewrite (mkdir_parents_existing _ _ _ Hdir).
  repeat (cbv beta iota; cbn [fs logs negb]; rewrite ?Hpresent).
  rewrite expand_default.
  destruct Hfail as [Hread | (text & Hread & [[Hparse Hne] | (config & Hparse & Hexp)])].
  - rewrite Hread. pose proof (read_file_exn _ _ _ _ Hread). by destruct e.
  - rewrite Hread. cbv beta iota. rewrite Hparse. by destruct e.
  - rewrite Hread. cbv beta iota. rewrite Hparse. cbv beta iota. rewrite Hexp.
    pose proof (expand_exn _ _ _ Hexp). by destruct e.
Qed.

Lemma load_config_falls_back_witness :
  is_dir (fs list_config) (APP_DATA_DIR more_env) = true /\
  path_exists (fs list_config) (CONFIG_FILE more_env) = true /\
  read_file (deny more_env) (fs list_config) (CONFIG_FILE more_env) = Ok "[]" /\
  json_loads more_env "[]" = Ok (VList []) /\
  expand_downloads_path more_env (VList []) = Raise TypeError /\
  load_config more_env list_config =
  (Ok (VDict [("initialized", VBool true);
              ("downloads_path", VPath (path_home more_env // "Downloads"));
              ("file_categories", default_categories)]),
   {| fs := fs list_config; logs := logs list_config ++ [UnexpectedLoadError TypeError] |}).
Proof.
  assert (Hread : read_file (deny more_env) (fs list_config) (CONFIG_FILE more_env)
                  = Ok "[]") by (vm_compute; reflexivity).
  split; [reflexivity|]. split; [vm_compute; reflexivity|]. split; [exact Hread|].
  split; [reflexivity|]. split; [reflexivity|].
  apply (load_config_falls_back more_env list_config TypeError);
    [reflexivity | vm_compute; reflexivity |].
  right. exists "[]". split; [exact Hread|]. right. exists (VList []). by split.
Defined.

(** ** Creating directories *)

Lemma os_mkdir_cases (deny : fsop -> bool) (fs : FS) (p : Path) :
  (exists e, os_mkdir deny fs p = (Raise e, fs)) \/
  (os_mkdir deny fs p = (Ok tt, <[p := Dir]> fs) /\
   lookup_node fs p = None /\ p <> []).
Proof.
  unfold os_mkdir. destruct (lookup_node fs p) eqn:Hp; [eauto|].
  assert (p <> []) by (intros ->; done).
  destruct (lookup_node fs (parent p)) as [[|]|]; eauto.
  destruct (deny (OpMkdir p)); eauto.
Qed.

Lemma insert_absent_keeps (fs : FS) (p q : Path) (x n : node) :
  lookup_node fs p = None -> p <> [] ->
  lookup_node fs q = Some n -> lookup_node (<[p := x]> fs) q = Some n.
Proof.
  intros Hp Hp0 Hq. rewrite lookup_node_insert by done.
  destruct (decide (p = q)) as [->|]; [congruence | done].
Qed.

Lemma insert_dir_no_file (fs : FS) (p q : Path) :
  p <> [] -> is_file fs q = false -> is_file (<[p := Dir]> fs) q = false.
Proof.
  intros Hp Hq. unfold is_file in *. rewrite lookup_node_insert by done.
  by destruct (decide (p = q)).
Qed.

Lemma mkdir_exist_ok_post (deny : fsop -> bool) (fs : FS) (p : Path) :
  (fst (mkdir_exist_ok deny fs p) = Ok tt ->
   is_dir (snd (mkdir_exist_ok deny fs p)) p = true) /\
  (forall q n, lookup_node fs q = Some n ->
               lookup_node (snd (mkdir_exist_ok deny fs p)) q = Some n) /\
  (forall q, is_file fs q = false ->
             is_file (snd (mkdir_exist_ok deny fs p)) q = false).
Proof.
  unfold mkdir_exist_ok.
  destruct (os_mkdir_cases deny fs p) as [[e ->] | (-> & Hnone & Hp0)].
  - destruct (is_dir fs p) eqn:Hdir; destruct e; cbn [fst snd]; by repeat split.
  - cbn [fst snd]. split; [|split].
    + intros _. unfold is_dir. by rewrite lookup_node_insert, decide_True.
    + intros q n. by apply insert_absent_keeps.
    + intros q. by apply insert_dir_no_file.
Qed.

Lemma mkdir_parents_fuel_post (deny : fsop -> bool) (fuel : nat) (fs : FS)
    (p : Path) :
  (fst (mkdir_parents_fuel deny fuel fs p) = Ok tt ->
   is_dir (snd (mkdir_parents_fuel deny fuel fs p)) p = true) /\
  (forall q n, lookup_node fs q = Some n ->
               lookup_node (snd (mkdir_parents_fuel deny fuel fs p)) q = Some n) /\
  (forall q, is_file fs q = false ->
             is_file (snd (mkdir_parents_fuel deny fuel fs p)) q = false).
Proof.
  revert fs p. induction fuel as [|fuel IH]; intros fs p.
  - cbn [mkdir_parents_fuel].
    destruct (os_mkdir_cases deny fs p) as [[e ->] | (-> & Hnone & Hp0)].
    + destruct (is_dir fs p) eqn:Hdir; destruct e; cbn [fst snd]; by repeat split.
    + cbn [fst snd]. split; [|split].
      * intros _. unfold is_dir. by rewrite lookup_node_insert, decide_True.
      * intros q n. by apply insert_absent_keeps.
      * intros q. by apply insert_dir_no_file.
  - cbn [mkdir_parents_fuel].
    destruct (os_mkdir_cases deny fs p) as [[e ->] | (-> & Hnone & Hp0)].
    + destruct (IH fs (parent p)) as (_ & Hkeep1 & Hfile1).
      destruct (mkdir_parents_fuel deny fuel fs (parent p)) as [[[]|e1] fs1];
        cbn [fst snd] in *.
      * destruct (mkdir_exist_ok_post deny fs1 p) as (Hdir2 & Hkeep2 & Hfile2).
        destruct (is_dir fs p) eqn:Hdir; destruct e; cbn [fst snd];
          (split; [done || exact Hdir2 | split; [intros q n Hq | intros q Hq]; auto]).
      * destruct (is_dir fs p) eqn:Hdir; destruct e; cbn [fst snd];
          (split; [done | split; [intros q n Hq | intros q Hq]; auto]).
    + cbn [fst snd]. split; [|split].
      * intros _. unfold is_dir. by rewrite lookup_node_insert, decide_True.
      * intros q n. by apply insert_absent_keeps.
      * intros q. by apply insert_dir_no_file.
Qed.

Lemma parent_prefix (p : Path) : parent p `prefix_of` p.
Proof.
  unfold parent. destruct (decide (p = [])) as [->|Hp]; [by exists []|].
  exists [List.last p ""]. by apply app_removelast_last.
Qed.

Lemma parent_length (p : Path) : p <> [] -> S (List.length (parent p)) = List.length p.
Proof.
  intros Hp. unfold parent.
  rewrite (app_removelast_last "" Hp) at 2. rewrite length_app. simpl. lia.
Qed.

Lemma mkdir_parents_fuel_ok (deny : fsop -> bool) (fuel : nat) (fs : FS) (p : Path) :
  List.length p <= fuel ->
  (forall q, q `prefix_of` p ->
             is_file fs q = false /\ deny (OpMkdir q) = false) ->
  fst (mkdir_parents_fuel deny fuel fs p) = Ok tt.
Proof.
  revert fs p. induction fuel as [|fuel IH]; intros fs p Hlen Hclear.
  - destruct p; [|simpl in Hlen; lia]. reflexivity.
  - destruct (Hclear p) as [Hfile Hdeny]; [done|].
    destruct (Hclear (parent p) (parent_prefix p)) as [Hpfile _].
    cbn [mkdir_parents_fuel]. unfold os_mkdir, is_file in *.
    destruct (lookup_node fs p) as [[|]|] eqn:Hp; [done | | ].
    { unfold is_dir. by rewrite Hp. }
    assert (Hp0 : p <> []) by (intros ->; done).
    destruct (lookup_node fs (parent p)) as [[|]|] eqn:Hpp; [done | by rewrite Hdeny |].
    assert (Hrec : fst (mkdir_parents_fuel deny fuel fs (parent p)) = Ok tt).
    { apply IH.
      - pose proof (parent_length p Hp0). lia.
      - intros q Hq. apply Hclear. etrans; [exact Hq | apply parent_prefix]. }
    destruct (mkdir_parents_fuel_post deny fuel fs (parent p)) as (Hdir1 & _ & Hfile1).
    destruct (mkdir_parents_fuel deny fuel fs (parent p)) as [[[]|e1] fs1];
      cbn [fst snd] in *; [|done].
    destruct (mkdir_exist_ok_creates deny fs1 p) as (fs2 & -> & _); try done.
    + apply Hfile1. unfold is_file. by rewrite Hp.
    + by apply Hdir1.
Qed.

(** [mkdir(parents=True, exist_ok=True)]: what holds when it returns, what
    holds in any case, and when it returns. *)
Lemma mkdir_parents_makes_directory (deny : fsop -> bool) (fs : FS) (p : Path) :
  (fst (mkdir_parents deny fs p) = Ok tt ->
   is_dir (snd (mkdir_parents deny fs p)) p = true) /\
  (forall q n, lookup_node fs q = Some n ->
               lookup_node (snd (mkdir_parents deny fs p)) q = Some n) /\
  (forall q, is_file fs q = false ->
             is_file (snd (mkdir_parents deny fs p)) q = false) /\
  ((forall q, q `prefix_of` p ->
              is_file fs q = false /\ deny (OpMkdir q) = false) ->
   fst (mkdir_parents deny fs p) = Ok tt).
Proof.
  unfold mkdir_parents.
  destruct (mkdir_parents_fuel_post deny (List.length p) fs p) as (H1 & H2 & H3).
  split; [exact H1|]. split; [exact H2|]. split; [exact H3|].
  by apply mkdir_parents_fuel_ok.
Qed.

Lemma mkdir_exist_ok_elsewhere (deny : fsop -> bool) (fs : FS) (p q : Path) :
  q <> p -> lookup_node (snd (mkdir_exist_ok deny fs p)) q = lookup_node fs q.
Proof.
  intros Hq. unfold mkdir_exist_ok.
  destruct (os_mkdir_cases deny fs p) as [[e ->] | (-> & Hnone & Hp0)].
  - by destruct (is_dir fs p), e.
  - cbn [snd]. by rewrite lookup_node_insert, decide_False.
Qed.

Lemma mkdir_parents_fuel_elsewhere (deny : fsop -> bool) (fuel : nat) (fs : FS)
    (p q : Path) :
  ~ q `prefix_of` p ->
  lookup_node (snd (mkdir_parents_fuel deny fuel fs p)) q = lookup_node fs q.
Proof.
  revert fs p. induction fuel as [|fuel IH]; intros fs p Hq.
  - cbn [mkdir_parents_fuel].
    destruct (os_mkdir_cases deny fs p) as [[e ->] | (-> & Hnone & Hp0)].
    + by destruct (is_dir fs p), e.
    + cbn [snd]. rewrite lookup_node_insert, decide_False; [done | | done].
      intros ->. by apply Hq.
  - cbn [mkdir_parents_fuel].
    assert (Hqp : q <> p) by (intros ->; by apply Hq).
    destruct (os_mkdir_cases deny fs p) as [[e ->] | (-> & Hnone & Hp0)].
    + assert (Hrec : lookup_node (snd (mkdir_parents_fuel deny fuel fs (parent p))) q
                     = lookup_node fs q).
      { apply IH. intros Hpre. apply Hq. etrans; [exact Hpre | apply parent_prefix]. }
      pose proof (fun fs1 => mkdir_exist_ok_elsewhere deny fs1 p q Hqp) as Hlast.
      destruct (mkdir_parents_fuel deny fuel fs (parent p)) as [[[]|e1] fs1];
        cbn [snd] in *;
        destruct (is_dir fs p), e; cbn [snd]; rewrite ?Hlast; done.
    + cbn [snd]. by rewrite lookup_node_insert, decide_False.
Qed.

Lemma config_file_not_prefix (E : env) : ~ CONFIG_FILE E `prefix_of` APP_DATA_DIR E.
Proof.
  intros [k Hk]. apply (f_equal List.length) in Hk.
  unfold CONFIG_FILE, Pathlib.div in Hk. rewrite !length_app in Hk. simpl in Hk. lia.
Qed.

(** X3.  On a fresh installation, where the application data directory is
    missing: when no prefix of its path is a regular file and no directory
    creation on the way is refused, [load_config] creates the directory
    (with its parents), returns the default configuration and logs that no
    configuration was found; it writes no configuration file, creates no
    regular file, and every node that was there is still there. *)
Theorem load_config_creates_app_dir (E : env) (w : world) :
  (forall q, q `prefix_of` APP_DATA_DIR E ->
             is_file (fs w) q = false /\ deny E (OpMkdir q) = false) ->
  path_exists (fs w) (CONFIG_FILE E) = false ->
  fst (load_config E w) =
    Ok (VDict [("initialized", VBool true);
               ("downloads_path", VPath (path_home E // "Downloads"));
               ("file_categories", default_categories)]) /\
  logs (snd (load_config E w)) = logs w ++ [NoConfigFound] /\
  is_dir (fs (snd (load_config E w))) (APP_DATA_DIR E) = true /\
  path_exists (fs (snd (load_config E w))) (CONFIG_FILE E) = false /\
  (forall q n, lookup_node (fs w) q = Some n ->
               lookup_node (fs (snd (load_config E w))) q = Some n) /\
  (forall q, is_file (fs w) q = false ->
             is_file (fs (snd (load_config E w))) q = false).
Proof.
  intros Hclear Hnone.
  destruct (mkdir_parents_makes_directory (deny E) (fs w) (APP_DATA_DIR E))
    as (Hdir & Hkeep & Hnofile & Hok).
  specialize (Hok Hclear). specialize (Hdir Hok).
  pose proof (mkdir_parents_fuel_elsewhere (deny E) (List.length (APP_DATA_DIR E))
                (fs w) (APP_DATA_DIR E) (CONFIG_FILE E) (config_file_not_prefix E))
    as Hcfg.
  fold (mkdir_parents (deny E) (fs w) (APP_DATA_DIR E)) in Hcfg.
  unfold load_config. unfold_monad.
  destruct (mkdir_parents (deny E) (fs w) (APP_DATA_DIR E)) as [[[]|e] fs1];
    cbn [fst snd] in *; [|done].
  assert (Hnone1 : path_exists fs1 (CONFIG_FILE E) = false).
  { unfold path_exists in *. by rewrite Hcfg. }
  cbn [fs logs]. rewrite Hnone1. cbn [negb fst snd fs logs].
  by repeat split.
Qed.

Lemma load_config_creates_app_dir_witness :
  (forall q, q `prefix_of` APP_DATA_DIR plain_env ->
             is_file (fs (start [])) q = false /\ deny plain_env (OpMkdir q) = false) /\
  path_exists (fs (start [])) (CONFIG_FILE plain_env) = false /\
  is_dir (fs (snd (load_config plain_env (start [])))) (APP_DATA_DIR plain_env) = true /\
  logs (snd (load_config plain_env (start []))) = [NoConfigFound].
Proof.
  assert (Hclear : forall q, q `prefix_of` APP_DATA_DIR plain_env ->
             is_file (fs (start [])) q = false /\ deny plain_env (OpMkdir q) = false).
  { intros q _. split; [|reflexivity].
    unfold is_file, lookup_node. destruct q; [done|]. cbn. by rewrite lookup_empty. }
  pose proof (load_config_creates_app_dir plain_env (start []) Hclear eq_refl)
    as (_ & Hlogs & Hdir & _).
  split; [exact Hclear|]. split; [reflexivity|]. split; [exact Hdir | exact Hlogs].
Defined.

(** ** Saving the configuration and the first run *)

Lemma write_json_ok (deny : fsop -> bool) (fs : FS) (p : Path) (o : pyval)
    (text old : string) :
  lookup_node fs p = Some (File old) \/ lookup_node fs p = None ->
  p <> [] ->
  is_dir fs (parent p) = true ->
  deny (OpWrite p) = false ->
  Json.iterencode o 0 = (text, true) ->
  write_json deny fs p o = (Ok tt, <[p := File text]> (<[p := File ""]> fs)).
Proof.
  intros Hp Hp0 Hparent Hdeny Henc. unfold write_json, open_w.
  unfold is_dir in Hparent.
  destruct (lookup_node fs (parent p)) as [[|]|]; try done.
  rewrite Hdeny, Henc.
  by destruct Hp as [-> | ->].
Qed.

Lemma save_config_writes (E : env) (items : list (string * pyval))
    (download_path : Path) (w : world) (text : string) :
  lookup_node (fs w) (CONFIG_FILE E) <> Some Dir ->
  is_dir (fs w) (APP_DATA_DIR E) = true ->
  deny E (OpWrite (CONFIG_FILE E)) = false ->
  Json.iterencode
    (VDict (assoc_set "downloads_path" (VStr (Pathlib.str download_path)) items)) 0
    = (text, true) ->
  save_config E (VDict items) download_path w =
  (Ok tt,
   {| fs := <[CONFIG_FILE E := File text]> (<[CONFIG_FILE E := File ""]> (fs w));
      logs := logs w ++ [ConfigUpdated] |}).
Proof.
  intros Hnodir Hdir Hdeny Henc.
  unfold save_config. unfold_monad. cbn [setitem fs logs].
  assert (Hcase : (exists old, lookup_node (fs w) (CONFIG_FILE E) = Some (File old)) \/
                  lookup_node (fs w) (CONFIG_FILE E) = None).
  { destruct (lookup_node (fs w) (CONFIG_FILE E)) as [[old|]|]; eauto. done. }
  assert (Hwrite : write_json (deny E) (fs w) (CONFIG_FILE E)
            (VDict (assoc_set "downloads_path" (VStr (Pathlib.str download_path)) items))
          = (Ok tt, <[CONFIG_FILE E := File text]> (<[CONFIG_FILE E := File ""]> (fs w)))).
  { assert (Hparent : is_dir (fs w) (parent (CONFIG_FILE E)) = true).
    { unfold CONFIG_FILE. by rewrite parent_div. }
    destruct Hcase as [[old Hold] | Hnone].
    - apply (write_json_ok _ _ _ _ _ old); [by left | apply div_not_root | done..].
    - apply (write_json_ok _ _ _ _ _ ""); [by right | apply div_not_root | done..]. }
  by rewrite Hwrite.
Qed.

(** X4.  Round trip of the configuration: after [sorter] has saved a
    configuration, the file holds its text and [load_config] reads the same
    configuration back without touching anything, provided the parser
    inverts the encoder on that text and expanding the saved path string
    gives the path back. *)
Theorem saved_config_loads_back (E : env) (items : list (string * pyval))
    (download_path : Path) (w : world) (text : string) :
  assoc "downloads_path" items = Some (VPath download_path) ->
  lookup_node (fs w) (CONFIG_FILE E) <> Some Dir ->
  is_dir (fs w) (APP_DATA_DIR E) = true ->
  deny E (OpWrite (CONFIG_FILE E)) = false ->
  deny E (OpRead (CONFIG_FILE E)) = false ->
  Json.iterencode
    (VDict (assoc_set "downloads_path" (VStr (Pathlib.str download_path)) items)) 0
    = (text, true) ->
  json_loads E text =
    Ok (VDict (assoc_set "downloads_path" (VStr (Pathlib.str download_path)) items)) ->
  path_expanduser E (Pathlib.str download_path) = Ok download_path ->
  let saved := snd (save_config E (VDict items) download_path w) in
  lookup_node (fs saved) (CONFIG_FILE E) = Some (File text) /\
  load_config E saved = (Ok (VDict items), saved).
Proof.
  intros Hpath Hnodir Hdir Hwrite Hread Henc Hparse Hexpand saved. subst saved.
  rewrite (save_config_writes E items download_path w text) by done. cbn [snd fs].
  assert (Hfile : lookup_node
            (<[CONFIG_FILE E := File text]> (<[CONFIG_FILE E := File ""]> (fs w)))
            (CONFIG_FILE E) = Some (File text)).
  { rewrite lookup_node_insert by apply div_not_root. by rewrite decide_True. }
  split; [exact Hfile|].
  rewrite (load_config_read E _ text); [| |exact Hfile|exact Hread].
  - rewrite Hparse. unfold expand_downloads_path, bind_outcome, getitem.
    rewrite assoc_set_same, Hexpand. cbn [setitem].
    by rewrite assoc_set_twice, (assoc_set_id _ _ _ Hpath).
  - cbn [fs]. unfold is_dir in *.
    rewrite !lookup_node_insert by apply div_not_root.
    rewrite !decide_False; [done | |];
      unfold CONFIG_FILE; apply div_ne_self.
Qed.

Lemma saved_config_loads_back_witness :
  assoc "downloads_path" initialized_items = Some (VPath downloads) /\
  lookup_node (fs uninitialized) (CONFIG_FILE more_env) <> Some Dir /\
  Json.iterencode
    (VDict (assoc_set "downloads_path" (VStr (Pathlib.str downloads)) initialized_items)) 0
    = (text_of (config_value true default_categories), true) /\
  json_loads more_env (text_of (config_value true default_categories))
    = Ok (VDict (assoc_set "downloads_path" (VStr (Pathlib.str downloads))
                   initialized_items)) /\
  path_expanduser more_env (Pathlib.str downloads) = Ok downloads /\
  load_config more_env
    (snd (save_config more_env (VDict initialized_items) downloads uninitialized))
  = (Ok (VDict initialized_items),
     snd (save_config more_env (VDict initialized_items) downloads uninitialized)).
Proof.
  assert (Hnodir : lookup_node (fs uninitialized) (CONFIG_FILE more_env) <> Some Dir)
    by (vm_compute; discriminate).
  assert (Henc : Json.iterencode
    (VDict (assoc_set "downloads_path" (VStr (Pathlib.str downloads)) initialized_items)) 0
    = (text_of (config_value true default_categories), true))
    by (vm_compute; reflexivity).
  assert (Hparse : json_loads more_env (text_of (config_value true default_categories))
    = Ok (VDict (assoc_set "downloads_path" (VStr (Pathlib.str downloads))
                   initialized_items))) by (vm_compute; reflexivity).
  assert (Hexp : path_expanduser more_env (Pathlib.str downloads) = Ok downloads)
    by (vm_compute; reflexivity).
  split; [reflexivity|]. split; [exact Hnodir|]. split; [exact Henc|].
  split; [exact Hparse|]. split; [exact Hexp|].
  exact (proj2 (saved_config_loads_back more_env initialized_items downloads
                  uninitialized (text_of (config_value true default_categories))
                  eq_refl Hnodir eq_refl eq_refl eq_refl Henc Hparse Hexp)).
Defined.

Lemma create_folders_run (E : env) (download_path : Path)
    (folder_names : list string) (w : world) :
  is_dir (fs w) download_path = true ->
  Forall (fun n => is_file (fs w) (download_path // n) = false /\
                   deny E (OpMkdir (download_path // n)) = false) folder_names ->
  exists fs',
    create_folders E false download_path folder_names w
      = (Ok tt, {| fs := fs'; logs := logs w ++ map CreatedFolder folder_names |}) /\
    (forall q n, lookup_node (fs w) q = Some n -> lookup_node fs' q = Some n) /\
    (forall n, n ∈ folder_names -> is_dir fs' (download_path // n) = true).
Proof.
  revert w. induction folder_names as [|n names IH]; intros w Hdl Hall.
  - exists (fs w). cbn [map]. rewrite app_nil_r, world_eta.
    split; [done|]. split; [done|]. by intros n ?%elem_of_nil.
  - apply Forall_cons in Hall as [[Hfile Hdeny] Hall].
    destruct (mkdir_exist_ok_creates (deny E) (fs w) (download_path // n))
      as (fs1 & Hmk & _ & Hdir); [apply div_not_root | done | by rewrite parent_div | done |].
    destruct (mkdir_exist_ok_post (deny E) (fs w) (download_path // n))
      as (_ & Hkeep & Hnofile).
    rewrite Hmk in Hkeep, Hnofile. cbn [snd] in Hkeep, Hnofile.
    destruct (IH {| fs := fs1; logs := logs w ++ [CreatedFolder n] |})
      as (fs' & Hrun & Hkeep' & Hdirs); cbn [fs logs] in *.
    { unfold is_dir in *.
      destruct (lookup_node (fs w) download_path) as [[|]|] eqn:Hl; try done.
      by rewrite (Hkeep _ _ Hl). }
    { eapply Forall_impl; [exact Hall|]. intros m [Hm ?]. split; [|done].
      by apply Hnofile. }
    exists fs'. split; [|split].
    + unfold create_folders in *. cbn [for_each]. unfold_monad.
      rewrite Hmk. cbv beta iota. cbn [fs logs]. rewrite Hrun. cbn [logs map].
      by rewrite <- app_assoc.
    + intros q nd Hq. by apply Hkeep', Hkeep.
    + intros m [->|Hm]%elem_of_cons; [|by apply Hdirs].
      unfold is_dir in *.
      destruct (lookup_node fs1 (download_path // n)) as [[|]|] eqn:Hl; try done.
      by rewrite (Hkeep' _ _ Hl).
Qed.

(** X5.  A first run that is not a dry run, with a category table whose
    keys are single path components, a downloads folder in which no regular
    file has the name of a category, and nothing refused, returns normally,
    leaves in the configuration file the text of the configuration with
    [initialized] set to true and the downloads path as a string, and logs
    the first-run record, one record per folder in the order of the table,
    and the record of the update. *)
Theorem first_run_persists_flag (E : env) (items d : list (string * pyval))
    (download_path : Path) (w : world) (old text : string) :
  is_dir (fs w) download_path = true ->
  Forall (fun n => simple_name n = true /\
                   is_file (fs w) (download_path // n) = false /\
                   deny E (OpMkdir (download_path // n)) = false) (map fst d) ->
  lookup_node (fs w) (CONFIG_FILE E) = Some (File old) ->
  is_dir (fs w) (APP_DATA_DIR E) = true ->
  deny E (OpWrite (CONFIG_FILE E)) = false ->
  Json.iterencode
    (VDict (assoc_set "downloads_path" (VStr (Pathlib.str download_path))
              (assoc_set "initialized" (VBool true) items))) 0 = (text, true) ->
  let r := first_run E false (VDict items) (VDict d) download_path w in
  fst r = Ok tt /\
  lookup_node (fs (snd r)) (CONFIG_FILE E) = Some (File text) /\
  logs (snd r)
    = logs w ++ FirstRunDetected :: map CreatedFolder (map fst d) ++ [ConfigUpdated].
Proof.
  intros Hdl Hall Hcfg Happ Hwrite Henc r. subst r.
  assert (Hall' : Forall (fun n => is_file (fs w) (download_path // n) = false /\
                     deny E (OpMkdir (download_path // n)) = false) (map fst d))
    by (eapply Forall_impl; [exact Hall | by intros n (_ & ? & ?)]).
  destruct (create_folders_run E download_path (map fst d)
              {| fs := fs w; logs := logs w ++ [FirstRunDetected] |} Hdl Hall')
    as (fs' & Hrun & Hkeep & _). cbn [fs logs] in *.
  unfold first_run. unfold_monad. cbn [keys setitem negb].
  cbv beta iota. cbn [fs logs]. rewrite Hrun.
  rewrite (save_config_writes E _ download_path _ text); cbn [fs logs fst snd].
  - split; [done|]. split.
    + rewrite lookup_node_insert by apply div_not_root. by rewrite decide_True.
    + by rewrite <- !app_assoc.
  - by rewrite (Hkeep _ _ Hcfg).
  - unfold is_dir in *.
    destruct (lookup_node (fs w) (APP_DATA_DIR E)) as [[|]|] eqn:Hl; try done.
    by rewrite (Hkeep _ _ Hl).
  - done.
  - done.
Qed.

Lemma first_run_persists_flag_witness :
  Forall (fun n => simple_name n = true /\
                   is_file (fs uninitialized) (downloads // n) = false /\
                   deny plain_env (OpMkdir (downloads // n)) = false)
         (map fst default_items) /\
  lookup_node (fs uninitialized) (CONFIG_FILE plain_env)
    = Some (File (text_of (config_value false default_categories))) /\
  lookup_node
    (fs (snd (first_run plain_env false (VDict loaded_items) (VDict default_items)
                downloads uninitialized)))
    (CONFIG_FILE plain_env)
    = Some (File (text_of (config_value true default_categories))).
Proof.
  assert (Hall : Forall (fun n => simple_name n = true /\
                   is_file (fs uninitialized) (downloads // n) = false /\
                   deny plain_env (OpMkdir (downloads // n)) = false)
         (map fst default_items)).
  { repeat constructor; vm_compute; reflexivity. }
  assert (Hfile : lookup_node (fs uninitialized) (CONFIG_FILE plain_env)
    = Some (File (text_of (config_value false default_categories))))
    by (vm_compute; reflexivity).
  assert (Henc : Json.iterencode
    (VDict (assoc_set "downloads_path" (VStr (Pathlib.str downloads))
              (assoc_set "initialized" (VBool true) loaded_items))) 0
    = (text_of (config_value true default_categories), true))
    by (vm_compute; reflexivity).
  split; [exact Hall|]. split; [exact Hfile|].
  exact (proj1 (proj2 (first_run_persists_flag plain_env loaded_items default_items
                  downloads uninitialized _ _ eq_refl Hall Hfile eq_refl eq_refl Henc))).
Defined.

Lemma for_each_app {A} (l1 l2 : list A) (body : A -> M unit) (w : world) :
  for_each (l1 ++ l2) body w =
  match for_each l1 body w with
  | (Ok _, w') => for_each l2 body w'
  | (Raise e, w') => (Raise e, w')
  end.
Proof.
  revert w. induction l1 as [|x l1 IH]; intros w; [done|].
  cbn [app for_each]. unfold mbind, M_bind.
  destruct (body x w) as [[[]|e] w']; [apply IH | done].
Qed.

Lemma mkdir_exist_ok_on_file (deny : fsop -> bool) (fs : FS) (p : Path) :
  is_file fs p = true ->
  mkdir_exist_ok deny fs p = (Raise FileExistsError, fs).
Proof.
  unfold mkdir_exist_ok, os_mkdir, is_file, is_dir.
  destruct (lookup_node fs p) as [[c|]|] eqn:Hp; try done.
  intros _. cbv beta iota. by rewrite Hp.
Qed.

(** X6.  The folder creation of the first run is not guarded: when a
    regular file in the downloads folder has the name of a category, the
    first run raises [FileExistsError] at that name, after creating the
    folders before it; the configuration is not saved, and no node that
    was there is removed or replaced.  The names up to that category are
    single path components. *)
Theorem category_named_file_aborts_first_run (E : env)
    (items d : list (string * pyval)) (download_path : Path) (w : world)
    (pre post : list string) (n : string) :
  map fst d = pre ++ n :: post ->
  is_dir (fs w) download_path = true ->
  Forall (fun m => simple_name m = true /\
                   is_file (fs w) (download_path // m) = false /\
                   deny E (OpMkdir (download_path // m)) = false) pre ->
  simple_name n = true ->
  is_file (fs w) (download_path // n) = true ->
  let r := first_run E false (VDict items) (VDict d) download_path w in
  fst r = Raise FileExistsError /\
  logs (snd r) = logs w ++ FirstRunDetected :: map CreatedFolder pre /\
  (forall q nd, lookup_node (fs w) q = Some nd ->
                lookup_node (fs (snd r)) q = Some nd).
Proof.
  intros Hkeys Hdl Hpre _ Hfile r. subst r.
  assert (Hpre' : Forall (fun m => is_file (fs w) (download_path // m) = false /\
                     deny E (OpMkdir (download_path // m)) = false) pre)
    by (eapply Forall_impl; [exact Hpre | by intros m (_ & ? & ?)]).
  destruct (create_folders_run E download_path pre
              {| fs := fs w; logs := logs w ++ [FirstRunDetected] |} Hdl Hpre')
    as (fs' & Hrun & Hkeep & _). cbn [fs logs] in *.
  assert (Hfile' : is_file fs' (download_path // n) = true).
  { unfold is_file in *.
    destruct (lookup_node (fs w) (download_path // n)) as [[c|]|] eqn:Hl; try done.
    by rewrite (Hkeep _ _ Hl). }
  unfold first_run. unfold_monad. cbn [keys]. rewrite Hkeys.
  cbv beta iota. cbn [fs logs].
  unfold create_folders in *. rewrite for_each_app, Hrun.
  cbn [for_each]. unfold_monad. cbn [fs logs].
  rewrite (mkdir_exist_ok_on_file _ _ _ Hfile'). cbn [fst snd fs logs].
  split; [done|]. split; [by rewrite <- app_assoc | exact Hkeep].
Qed.

Lemma category_named_file_aborts_first_run_witness :
  map fst default_items = ["Archives"] ++ "Documents" :: ["Graphics"; "Others"; "Programs"] /\
  Forall (fun m => simple_name m = true /\
                   is_file (fs blocked) (downloads // m) = false /\
                   deny plain_env (OpMkdir (downloads // m)) = false) ["Archives"] /\
  simple_name "Documents" = true /\
  is_file (fs blocked) (downloads // "Documents") = true /\
  fst (first_run plain_env false (VDict loaded_items) (VDict default_items)
         downloads blocked) = Raise FileExistsError /\
  logs (snd (first_run plain_env false (VDict loaded_items) (VDict default_items)
               downloads blocked))
    = [FirstRunDetected; CreatedFolder "Archives"].
Proof.
  assert (Hpre : Forall (fun m => simple_name m = true /\
                   is_file (fs blocked) (downloads // m) = false /\
                   deny plain_env (OpMkdir (downloads // m)) = false) ["Archives"]).
  { repeat constructor; vm_compute; reflexivity. }
  assert (Hfile : is_file (fs blocked) (downloads // "Documents") = true)
    by (vm_compute; reflexivity).
  pose proof (category_named_file_aborts_first_run plain_env loaded_items
                default_items downloads blocked ["Archives"]
                ["Graphics"; "Others"; "Programs"] "Documents"
                eq_refl eq_refl Hpre eq_refl Hfile) as (Hraise & Hlogs & _).
  split; [reflexivity|]. split; [exact Hpre|]. split; [reflexivity|].
  split; [exact Hfile|].
  split; [exact Hraise | exact Hlogs].
Defined.

(** ** The resolved name *)

Lemma string_app_assoc (a b c : string) : (a +:+ b) +:+ c = a +:+ (b +:+ c).
Proof.
  induction a as [|x a IH]; [done|].
  rewrite !string_app_cons. by rewrite IH.
Qed.

Lemma rsplit_dot_tail (n a b : string) :
  Str.rsplit_dot n = Some (a, b) ->
  Str.rsplit_dot b = Some (EmptyString, b) /\ n = a +:+ b.
Proof.
  revert a. induction n as [|c n IH]; intros a; simpl; [done|].
  destruct (Str.rsplit_dot n) as [[a' b']|] eqn:Hn.
  - intros [= <- <-]. destruct (IH a' eq_refl) as [Hb ->]. by split.
  - destruct (Ascii.eqb c ".") eqn:Hc; [|done].
    intros [= <- <-]. split; [|done]. simpl. by rewrite Hn, Hc.
Qed.

Lemma rsplit_dot_app (x b : string) :
  Str.rsplit_dot b = Some (EmptyString, b) ->
  Str.rsplit_dot (x +:+ b) = Some (x, b).
Proof.
  intros Hb. induction x as [|c x IH]; [done|].
  rewrite string_app_cons. simpl. by rewrite IH.
Qed.

(** A name with an extension keeps it when a counter is put after its
    stem. *)
Lemma suffix_of_numbered_name (n mid : string) :
  suffix_of_name n <> "" ->
  suffix_of_name (stem_of_name n +:+ mid +:+ suffix_of_name n) = suffix_of_name n.
Proof.
  unfold suffix_of_name at 1 3 4, stem_of_name.
  destruct (Str.rsplit_dot n) as [[a b]|] eqn:Hn; [|done].
  destruct ((0 <? String.length a)%nat && (1 <? String.length b)%nat) eqn:Hlen;
    [|done].
  intros _. destruct (rsplit_dot_tail _ _ _ Hn) as [Hb _].
  unfold suffix_of_name. rewrite <- string_app_assoc, (rsplit_dot_app _ _ Hb).
  apply andb_prop in Hlen as [Ha Hb1]. rewrite Hb1.
  rewrite string_length_app. apply Nat.ltb_lt in Ha.
  assert (Hpos : (0 <? String.length a + String.length mid)%nat = true)
    by (apply Nat.ltb_lt; lia).
  by rewrite Hpos.
Qed.

Lemma get_available_name_parent (fs : FS) (p : Path) :
  parent (get_available_name fs p) = parent p.
Proof.
  unfold get_available_name, get_available_name_fuel.
  destruct (path_exists fs p); cbn [negb]; [|done].
  destruct (available_loop_enough fs p) as [q Hq]. rewrite Hq.
  destruct (available_loop_some _ _ _ _ _ Hq) as (k & _ & -> & _).
  unfold candidate. apply parent_div.
Qed.

(** X7.  The path returned by [get_available_name] does not exist, lies in
    the same folder as the desired path, is the desired path exactly when
    that one is free, and keeps the extension of a name that has one. *)
Theorem get_available_name_keeps_place (fs : FS) (destination_path : Path) :
  path_exists fs (get_available_name fs destination_path) = false /\
  parent (get_available_name fs destination_path) = parent destination_path /\
  (get_available_name fs destination_path = destination_path <->
   path_exists fs destination_path = false) /\
  (suffix destination_path <> "" ->
   suffix (get_available_name fs destination_path) = suffix destination_path).
Proof.
  pose proof (get_available_name_free fs destination_path) as Hfree.
  split; [exact Hfree|].
  destruct (path_exists fs destination_path) eqn:Hex.
  - assert (Hcand : exists k, get_available_name fs destination_path
                              = candidate destination_path k).
    { unfold get_available_name, get_available_name_fuel. rewrite Hex. cbn [negb].
      destruct (available_loop_enough fs destination_path) as [q Hq]. rewrite Hq.
      destruct (available_loop_some _ _ _ _ _ Hq) as (k & _ & -> & _). eauto. }
    destruct Hcand as [k Hk]. split; [|split].
    + rewrite Hk. unfold candidate. apply parent_div.
    + split; [|done]. intros Heq. rewrite Heq in Hfree. congruence.
    + intros Hsuffix. rewrite Hk. unfold candidate, suffix, stem.
      rewrite name_div.
      rewrite <- (string_app_assoc " (" (Str.of_nat k) _).
      rewrite <- (string_app_assoc (" (" +:+ Str.of_nat k) ")" _).
      by apply suffix_of_numbered_name.
  - assert (Hsame : get_available_name fs destination_path = destination_path).
    { unfold get_available_name, get_available_name_fuel. by rewrite Hex. }
    rewrite Hsame. by repeat split.
Qed.

Lemma get_available_name_keeps_place_witness :
  suffix photo <> "" /\
  suffix (get_available_name two_photos photo) = ".png" /\
  suffix (get_available_name two_photos photo) = suffix photo.
Proof.
  assert (Hsuffix : suffix photo <> "") by (vm_compute; discriminate).
  split; [exact Hsuffix|]. split; [vm_compute; reflexivity|].
  exact (proj2 (proj2 (proj2 (get_available_name_keeps_place two_photos photo))) Hsuffix).
Defined.

(** ** What the loop touches *)

Lemma lookup_node_delete (fs : FS) (p q : Path) :
  p <> [] ->
  lookup_node (delete p fs) q = if decide (p = q) then None else lookup_node fs q.
Proof.
  intros Hp. unfold lookup_node. destruct q as [|c q].
  - by rewrite decide_False.
  - apply lookup_delete.
Qed.

Lemma path_exists_false (fs : FS) (p : Path) :
  path_exists fs p = false -> lookup_node fs p = None /\ p <> [].
Proof.
  unfold path_exists. destruct p as [|c p]; [done|].
  by destruct (lookup_node fs (c :: p)).
Qed.

Lemma os_rename_cases (deny : fsop -> bool) (fs : FS) (src dst : Path)
    (c : string) :
  lookup_node fs src = Some (File c) ->
  lookup_node fs dst = None ->
  (exists e, os_rename deny fs src dst = (Raise e, fs)) \/
  os_rename deny fs src dst = (Ok tt, <[dst := File c]> (delete src fs)).
Proof.
  intros Hsrc Hdst. unfold os_rename. rewrite Hsrc, Hdst.
  destruct (lookup_node fs (parent dst)) as [[|]|]; eauto.
  destruct (deny (OpRename src dst)); eauto.
Qed.

Lemma copy2_cases (deny : fsop -> bool) (fs : FS) (src dst : Path) (c : string) :
  lookup_node fs src = Some (File c) ->
  lookup_node fs dst = None ->
  (exists e, copy2 deny fs src dst = (Raise e, fs)) \/
  copy2 deny fs src dst = (Ok tt, <[dst := File c]> (<[dst := File ""]> fs)).
Proof.
  intros Hsrc Hdst.
  assert (Hne : src <> dst) by (intros ->; congruence).
  unfold copy2, is_dir. rewrite Hdst, (bool_decide_eq_false_2 (src = dst)) by done.
  unfold read_file, open_w. rewrite Hsrc, Hdst.
  destruct (deny (OpRead src)); eauto.
  destruct (lookup_node fs (parent dst)) as [[|]|]; eauto.
  destruct (deny (OpWrite dst)); eauto.
Qed.

Lemma shutil_move_cases (deny : fsop -> bool) (fs : FS) (src dst : Path)
    (c : string) :
  lookup_node fs src = Some (File c) ->
  path_exists fs dst = false ->
  (exists e, shutil_move deny fs src dst = (Raise e, fs)) \/
  shutil_move deny fs src dst = (Ok tt, <[dst := File c]> (delete src fs)) \/
  (exists e, shutil_move deny fs src dst
             = (Raise e, <[dst := File c]> (<[dst := File ""]> fs))) \/
  shutil_move deny fs src dst
    = (Ok tt, delete src (<[dst := File c]> (<[dst := File ""]> fs))).
Proof.
  intros Hsrc [Hdst Hdst0]%path_exists_false.
  assert (Hne : src <> dst) by (intros ->; congruence).
  unfold shutil_move, is_dir. rewrite Hdst. cbn [andb].
  destruct (os_rename_cases deny fs src dst c Hsrc Hdst) as [[e ->] | ->]; [|eauto].
  destruct (copy2_cases deny fs src dst c Hsrc Hdst) as [[e' ->] | ->]; [eauto|].
  unfold os_unlink.
  rewrite !lookup_node_insert, !decide_False, Hsrc by done.
  destruct (deny (OpUnlink src)); eauto 6.
Qed.

(** What [shutil.move] does to a regular file whose destination is free:
    only the source and the destination change, the content ends up at the
    destination when the call returns, and it is never lost. *)
Lemma shutil_move_effect (deny : fsop -> bool) (fs : FS) (src dst : Path)
    (c : string) :
  lookup_node fs src = Some (File c) ->
  path_exists fs dst = false ->
  (forall q, q <> src -> q <> dst ->
     lookup_node (snd (shutil_move deny fs src dst)) q = lookup_node fs q) /\
  (fst (shutil_move deny fs src dst) = Ok tt ->
     lookup_node (snd (shutil_move deny fs src dst)) dst = Some (File c) /\
     lookup_node (snd (shutil_move deny fs src dst)) src = None) /\
  (lookup_node (snd (shutil_move deny fs src dst)) src = Some (File c) \/
   lookup_node (snd (shutil_move deny fs src dst)) dst = Some (File c)).
Proof.
  intros Hsrc Hfree.
  destruct (path_exists_false _ _ Hfree) as [Hdst Hdst0].
  assert (Hsrc0 : src <> []) by (intros ->; done).
  assert (Hne : src <> dst) by (intros ->; congruence).
  destruct (shutil_move_cases deny fs src dst c Hsrc Hfree)
    as [[e ->] | [-> | [[e ->] | ->]]]; cbn [fst snd].
  - split; [done|]. split; [done|]. by left.
  - split; [|split].
    + intros q Hq1 Hq2.
      by rewrite lookup_node_insert, lookup_node_delete, !decide_False by done.
    + intros _. rewrite lookup_node_insert, decide_True by done.
      by rewrite lookup_node_insert, lookup_node_delete, decide_False, decide_True by done.
    + right. by rewrite lookup_node_insert, decide_True by done.
  - split; [|split].
    + intros q Hq1 Hq2. by rewrite !lookup_node_insert, !decide_False by done.
    + done.
    + right. by rewrite lookup_node_insert, decide_True by done.
  - split; [|split].
    + intros q Hq1 Hq2.
      by rewrite lookup_node_delete, !lookup_node_insert, !decide_False by done.
    + intros _. rewrite !lookup_node_delete by done.
      rewrite decide_False, decide_True by done.
      by rewrite lookup_node_insert, decide_True by done.
    + right. rewrite lookup_node_delete, decide_False by done.
      by rewrite lookup_node_insert, decide_True by done.
Qed.

Lemma is_file_lookup (fs : FS) (p : Path) :
  is_file fs p = true -> exists c, lookup_node fs p = Some (File c).
Proof. unfold is_file. destruct (lookup_node fs p) as [[c|]|]; eauto; done. Qed.

(** A step of the loop keeps every node it is not about. *)
Lemma process_item_keeps (E : env) (categories : pyval)
    (download_path item : Path) (w : world) (q : Path) (n : node) :
  lookup_node (fs w) q = Some n ->
  q <> item \/ n = Dir ->
  lookup_node (fs (snd (process_item E false categories download_path item w))) q
    = Some n.
Proof.
  intros Hq Hother. unfold process_item. unfold_monad.
  destruct (is_file (fs w) item) eqn:Hfile; cbn [negb]; [|done].
  destruct (classify_name E categories (name item)) as [category|e]; [|done].
  cbn [fs logs].
  set (final := get_available_name (fs w) (download_path // category // name item)).
  destruct (is_file_lookup _ _ Hfile) as [c Hc].
  assert (Hfree : path_exists (fs w) final = false) by apply get_available_name_free.
  destruct (shutil_move_effect (deny E) (fs w) item final c Hc Hfree) as (Hkeep & _ & _).
  assert (Hq1 : q <> item).
  { destruct Hother as [?| ->]; [done|]. intros ->. congruence. }
  assert (Hq2 : q <> final).
  { intros ->. apply path_exists_false in Hfree as [Hnone _]. congruence. }
  specialize (Hkeep q Hq1 Hq2).
  destruct (shutil_move (deny E) (fs w) item final) as [[[]|e] fs'];
    cbn [fst snd fs logs] in *; [|by rewrite Hkeep].
  destruct (bool_decide _); cbn [fst snd fs logs]; by rewrite Hkeep.
Qed.

Lemma for_each_keeps (E : env) (categories : pyval) (download_path : Path)
    (items : list Path) (w : world) (q : Path) (n : node) :
  lookup_node (fs w) q = Some n ->
  q ∉ items \/ n = Dir ->
  lookup_node
    (fs (snd (for_each items (process_item E false categories download_path) w))) q
    = Some n.
Proof.
  revert w. induction items as [|item items IH]; intros w Hq Hother; [done|].
  cbn [for_each]. unfold mbind, M_bind.
  assert (Hstep := process_item_keeps E categories download_path item w q n Hq).
  destruct (process_item E false categories download_path item w) as [[[]|e] w'];
    cbn [snd] in *.
  - apply IH.
    + apply Hstep. destruct Hother as [Hnot|?]; [left|by right].
      intros ->. apply Hnot. left.
    + destruct Hother as [Hnot|?]; [left|by right].
      intros Hin. apply Hnot. by right.
  - apply Hstep. destruct Hother as [Hnot|?]; [left|by right].
    intros ->. apply Hnot. left.
Qed.

Lemma children_parent (fs0 : FS) (p q : Path) :
  q ∈ children fs0 p -> parent q = p.
Proof. unfold children. intros Hq. apply list_elem_of_filter in Hq. tauto. Qed.

(** X9.  The pass over the downloads folder, in a run that is not a dry
    run, never touches a directory, nor anything that is not directly in
    the downloads folder: files sorted earlier keep their place and
    content, whether the pass returns or raises. *)
Theorem organize_keeps_the_rest (E : env) (categories : pyval)
    (download_path : Path) (w : world) (q : Path) (n : node) :
  lookup_node (fs w) q = Some n ->
  parent q <> download_path \/ n = Dir ->
  lookup_node (fs (snd (organize E false categories download_path w))) q = Some n.
Proof.
  intros Hq Hother. unfold organize, mbind, M_bind, iterdir.
  destruct (lookup_node (fs w) download_path) as [[|]|]; try done.
  destruct (deny E (OpRead download_path)); [done|].
  apply for_each_keeps; [done|].
  destruct Hother as [Hparent|?]; [left|by right].
  by intros ?%children_parent.
Qed.

Lemma organize_keeps_the_rest_witness :
  lookup_node (fs resorting) photo = Some (File "1") /\
  (parent photo <> downloads \/ File "1" = Dir) /\
  lookup_node (fs (snd (organize plain_env false default_categories downloads resorting)))
    photo = Some (File "1") /\
  lookup_node (fs (snd (organize plain_env false default_categories downloads resorting)))
    (downloads // "Graphics" // "photo (1).png") = Some (File "2").
Proof.
  assert (Hq : lookup_node (fs resorting) photo = Some (File "1"))
    by (vm_compute; reflexivity).
  assert (Hother : parent photo <> downloads \/ File "1" = Dir)
    by (left; vm_compute; discriminate).
  split; [exact Hq|]. split; [exact Hother|]. split.
  - exact (organize_keeps_the_rest plain_env default_categories downloads resorting
             photo (File "1") Hq Hother).
  - vm_compute. reflexivity.
Defined.



(** ** The end of a run *)

Lemma process_item_ok (E : env) (dry_run : bool) (categories : pyval)
    (sets : string -> list string) (download_path item : Path) (w : world) :
  table_of categories sets ->
  fst (process_item E dry_run categories download_path item w) = Ok tt.
Proof.
  intros Htable. unfold process_item, classify_name. unfold_monad.
  destruct (classify_total categories sets
              (str_lower E (suffix_of_name (name item))) Htable) as [category ->].
  destruct (is_file (fs w) item); cbn [negb]; [|done].
  cbn [fs logs]. destruct dry_run.
  - by case_bool_decide.
  - match goal with |- context [shutil_move ?d ?f ?a ?b] =>
      destruct (shutil_move d f a b) as [[[]|e] fs'] end; [|done].
    by case_bool_decide.
Qed.

Lemma for_each_ok (E : env) (dry_run : bool) (categories : pyval)
    (sets : string -> list string) (download_path : Path) (items : list Path)
    (w : world) :
  table_of categories sets ->
  fst (for_each items (process_item E dry_run categories download_path) w) = Ok tt.
Proof.
  intros Htable. revert w. induction items as [|item items IH]; intros w; [done|].
  cbn [for_each]. unfold mbind, M_bind.
  pose proof (process_item_ok E dry_run categories sets download_path item w Htable)
    as Hitem.
  destruct (process_item E dry_run categories download_path item w) as [[[]|e] w'];
    cbn [fst] in Hitem; [apply IH | done].
Qed.

(** How a run goes on after the configuration is loaded. *)
Lemma main_after_load (E : env) (dry_run : bool) (w w1 : world) (config : pyval) :
  load_config E w = (Ok config, w1) ->
  main E dry_run w =
  match sorter_with E dry_run config w1 with
  | (Ok _, w') => (FinishedSuccessfully, w')
  | (Raise e, w') => (EncounteredError e, w')
  end.
Proof. intros Hload. unfold main, sorter, mbind, M_bind. by rewrite Hload. Qed.

(** X10.  When the loaded configuration is initialized, its category table
    has the four keys with lists of strings, the downloads folder can be
    listed and no status query is refused, a run ends with the record of
    success, dry run or not, whatever happens to the individual moves. *)
Theorem run_finishes_despite_failed_moves (E : env) (dry_run : bool)
    (w w1 : world) (d : list (string * pyval)) (p : Path) (categories v : pyval)
    (sets : string -> list string) :
  load_config E w = (Ok (VDict d), w1) ->
  assoc "downloads_path" d = Some (VPath p) ->
  assoc "file_categories" d = Some categories ->
  assoc "initialized" d = Some v -> truthy v = true ->
  table_of categories sets ->
  is_dir (fs w1) p = true ->
  deny E (OpRead p) = false ->
  (forall q, deny E (OpStat q) = false) ->
  fst (main E dry_run w) = FinishedSuccessfully.
Proof.
  intros Hload Hpath Hcats Hinit Htruthy Htable Hdir Hlist _.
  rewrite (main_after_load E dry_run w w1 _ Hload).
  unfold sorter_with. unfold_monad. cbn [getitem dict_get].
  rewrite Hpath, Hcats, Hinit. cbn [as_path].
  unfold path_exists, organize, iterdir, mbind, M_bind. unfold is_dir in Hdir.
  destruct (lookup_node (fs w1) p) as [[|]|] eqn:Hl; try done.
  repeat (cbv beta iota; cbn [fs logs negb]; rewrite ?Hl, ?Htruthy, ?Hlist).
  pose proof (for_each_ok E dry_run categories sets p (children (fs w1) p) w1 Htable)
    as Hloop.
  by destruct (for_each _ _ w1) as [[[]|e] w'].
Qed.

Lemma run_finishes_despite_failed_moves_witness :
  load_config denying_env sorted_once =
    (Ok (VDict [("initialized", VBool true);
                ("downloads_path", VPath (path_home denying_env // "Downloads"));
                ("file_categories", default_categories)]),
     {| fs := fs sorted_once; logs := logs sorted_once ++ [NoConfigFound] |}) /\
  table_of default_categories default_sets /\
  (forall q, deny denying_env (OpStat q) = false) /\
  fst (main denying_env false sorted_once) = FinishedSuccessfully /\
  logs (snd (main denying_env false sorted_once))
    = [NoConfigFound; MoveError "a.zip" PermissionError; Moved "b.JPG" "Graphics"].
Proof.
  assert (Hload : load_config denying_env sorted_once =
    (Ok (VDict [("initialized", VBool true);
                ("downloads_path", VPath (path_home denying_env // "Downloads"));
                ("file_categories", default_categories)]),
     {| fs := fs sorted_once; logs := logs sorted_once ++ [NoConfigFound] |})).
  { apply load_config_fresh; vm_compute; reflexivity. }
  split; [exact Hload|]. split; [exact default_table|].
  split; [reflexivity|]. split.
  - apply (run_finishes_despite_failed_moves denying_env false sorted_once _ _
             (path_home denying_env // "Downloads") default_categories (VBool true)
             default_sets Hload);
      [reflexivity | reflexivity | reflexivity | reflexivity | exact default_table
      | vm_compute; reflexivity | vm_compute; reflexivity | reflexivity].
  - vm_compute. reflexivity.
Defined.

(** X11.  When the downloads folder does not exist, the run logs the error
    and ends at once with the record of success: nothing is created, also
    when the configuration is not initialized yet. *)
Theorem missing_downloads_folder_ends_run (E : env) (dry_run : bool)
    (w w1 : world) (d : list (string * pyval)) (p : Path) (categories : pyval) :
  load_config E w = (Ok (VDict d), w1) ->
  assoc "downloads_path" d = Some (VPath p) ->
  assoc "file_categories" d = Some categories ->
  path_exists (fs w1) p = false ->
  main E dry_run w =
  (FinishedSuccessfully,
   {| fs := fs w1; logs := logs w1 ++ [DownloadsMissing p] |}).
Proof.
  intros Hload Hpath Hcats Hnone.
  rewrite (main_after_load E dry_run w w1 _ Hload).
  unfold sorter_with. unfold_monad. cbn [getitem].
  rewrite Hpath, Hcats. cbn [as_path]. by rewrite Hnone.
Qed.

Lemma missing_downloads_folder_ends_run_witness :
  load_config plain_env no_downloads =
    (Ok (VDict [("initialized", VBool true);
                ("downloads_path", VPath (path_home plain_env // "Downloads"));
                ("file_categories", default_categories)]),
     {| fs := fs no_downloads; logs := logs no_downloads ++ [NoConfigFound] |}) /\
  path_exists (fs no_downloads) (path_home plain_env // "Downloads") = false /\
  main plain_env false no_downloads =
  (FinishedSuccessfully,
   {| fs := fs no_downloads;
      logs := (logs no_downloads ++ [NoConfigFound])
              ++ [DownloadsMissing (path_home plain_env // "Downloads")] |}).
Proof.
  assert (Hload : load_config plain_env no_downloads =
    (Ok (VDict [("initialized", VBool true);
                ("downloads_path", VPath (path_home plain_env // "Downloads"));
                ("file_categories", default_categories)]),
     {| fs := fs no_downloads; logs := logs no_downloads ++ [NoConfigFound] |})).
  { apply load_config_fresh; vm_compute; reflexivity. }
  assert (Hnone : path_exists (fs no_downloads) (path_home plain_env // "Downloads")
                  = false) by (vm_compute; reflexivity).
  split; [exact Hload|]. split; [exact Hnone|].
  exact (missing_downloads_folder_ends_run plain_env false no_downloads _ _ _
           default_categories Hload eq_refl eq_refl Hnone).
Defined.

(** X12.  A configuration without the key [file_categories] is not
    repaired by [load_config]: [sorter] raises [KeyError] for that key
    before anything is touched, and the main block logs it as the error of
    the run. *)
Theorem missing_categories_key_raises (E : env) (dry_run : bool)
    (w w1 : world) (d : list (string * pyval)) (v : pyval) :
  load_config E w = (Ok (VDict d), w1) ->
  assoc "downloads_path" d = Some v ->
  assoc "file_categories" d = None ->
  sorter E dry_run w = (Raise (KeyError "file_categories"), w1) /\
  main E dry_run w = (EncounteredError (KeyError "file_categories"), w1).
Proof.
  intros Hload Hpath Hcats.
  assert (Hrun : sorter_with E dry_run (VDict d) w1
                 = (Raise (KeyError "file_categories"), w1)).
  { unfold sorter_with. unfold_monad. cbn [getitem]. by rewrite Hpath, Hcats. }
  split.
  - unfold sorter, mbind, M_bind. by rewrite Hload.
  - by rewrite (main_after_load E dry_run w w1 _ Hload), Hrun.
Qed.

Lemma load_without_categories :
  load_config more_env without_categories =
  (Ok (VDict [("initialized", VBool true); ("downloads_path", VPath downloads)]),
   without_categories).
Proof.
  rewrite (load_config_read more_env without_categories
             (text_of config_without_categories));
    [| vm_compute; reflexivity | vm_compute; reflexivity | reflexivity].
  assert (Hparse : json_loads more_env (text_of config_without_categories)
                   = Ok config_without_categories) by (vm_compute; reflexivity).
  rewrite Hparse. reflexivity.
Qed.

Lemma missing_categories_key_raises_witness :
  load_config more_env without_categories =
    (Ok (VDict [("initialized", VBool true); ("downloads_path", VPath downloads)]),
     without_categories) /\
  main more_env false without_categories
    = (EncounteredError (KeyError "file_categories"), without_categories).
Proof.
  split; [exact load_without_categories|].
  exact (proj2 (missing_categories_key_raises more_env false without_categories _ _
                  (VPath downloads) load_without_categories eq_refl eq_refl)).
Defined.

(** X13.  The existence check on the downloads path does not tell a folder
    from a file: when the path of an initialized configuration names a
    regular file, listing it raises [NotADirectoryError], which ends the run
    with the record of an error and nothing touched. *)
Theorem downloads_path_to_file_raises (E : env) (dry_run : bool)
    (w w1 : world) (d : list (string * pyval)) (p : Path) (categories v : pyval) :
  load_config E w = (Ok (VDict d), w1) ->
  assoc "downloads_path" d = Some (VPath p) ->
  assoc "file_categories" d = Some categories ->
  assoc "initialized" d = Some v -> truthy v = true ->
  is_file (fs w1) p = true ->
  main E dry_run w = (EncounteredError NotADirectoryError, w1).
Proof.
  intros Hload Hpath Hcats Hinit Htruthy Hfile.
  rewrite (main_after_load E dry_run w w1 _ Hload).
  unfold sorter_with. unfold_monad. cbn [getitem dict_get].
  rewrite Hpath, Hcats, Hinit. cbn [as_path].
  unfold path_exists, organize, iterdir, mbind, M_bind. unfold is_file in Hfile.
  destruct (lookup_node (fs w1) p) as [[c|]|] eqn:Hl; try done.
  by repeat (cbv beta iota; cbn [fs logs negb]; rewrite ?Hl, ?Htruthy).
Qed.

Lemma load_pointing_to_file :
  load_config more_env pointing_to_file =
  (Ok (VDict [("initialized", VBool true);
              ("downloads_path", VPath (home // "notes.txt"));
              ("file_categories", default_categories)]),
   pointing_to_file).
Proof.
  rewrite (load_config_read more_env pointing_to_file (text_of config_to_file));
    [| vm_compute; reflexivity | vm_compute; reflexivity | reflexivity].
  assert (Hparse : json_loads more_env (text_of config_to_file) = Ok config_to_file)
    by (vm_compute; reflexivity).
  rewrite Hparse. reflexivity.
Qed.

Lemma downloads_path_to_file_raises_witness :
  load_config more_env pointing_to_file =
    (Ok (VDict [("initialized", VBool true);
                ("downloads_path", VPath (home // "notes.txt"));
                ("file_categories", default_categories)]),
     pointing_to_file) /\
  path_exists (fs pointing_to_file) (home // "notes.txt") = true /\
  is_file (fs pointing_to_file) (home // "notes.txt") = true /\
  main more_env false pointing_to_file
    = (EncounteredError NotADirectoryError, pointing_to_file).
Proof.
  assert (Hfile : is_file (fs pointing_to_file) (home // "notes.txt") = true)
    by (vm_compute; reflexivity).
  split; [exact load_pointing_to_file|]. split; [vm_compute; reflexivity|].
  split; [exact Hfile|].
  exact (downloads_path_to_file_raises more_env false pointing_to_file _ _
           (home // "notes.txt") default_categories (VBool true)
           load_pointing_to_file eq_refl eq_refl eq_refl eq_refl Hfile).
Defined.

(** ** Running twice *)

Lemma elem_of_children (fs0 : FS) (p q : Path) :
  q ∈ children fs0 p <-> q <> [] /\ parent q = p /\ is_Some (fs0 !! q).
Proof.
  unfold children. rewrite list_elem_of_filter, list_elem_of_fmap. split.
  - intros [[Hq Hp] ([q' n] & -> & Hin)]. apply elem_of_map_to_list in Hin.
    cbn [fst] in *. eauto.
  - intros (Hq & Hp & [n Hn]). split; [done|].
    exists (q, n). split; [done|]. by apply elem_of_map_to_list.
Qed.

Lemma for_each_skip (E : env) (categories : pyval) (download_path : Path)
    (items : list Path) (w : world) :
  (forall item, item ∈ items -> is_file (fs w) item = false) ->
  for_each items (process_item E false categories download_path) w = (Ok tt, w).
Proof.
  induction items as [|item items IH]; intros Hnone; [done|].
  cbn [for_each]. unfold mbind at 1, M_bind at 1.
  assert (Hstep : process_item E false categories download_path item w = (Ok tt, w)).
  { unfold process_item. unfold_monad. by rewrite Hnone by left. }
  rewrite Hstep. apply IH. intros i Hi. apply Hnone. by right.
Qed.

(** A step of the loop when nothing is refused and the category folder is
    there: the file is moved. *)
Lemma process_item_moves (E : env) (categories : pyval)
    (sets : string -> list string) (download_path item : Path) (w : world)
    (c : string) :
  (forall src dst, deny E (OpRename src dst) = false) ->
  table_of categories sets ->
  (forall k, k ∈ priority ++ [fallback] ->
             is_dir (fs w) (download_path // k) = true) ->
  lookup_node (fs w) item = Some (File c) ->
  exists final category,
    parent final = download_path // category /\
    lookup_node (fs w) final = None /\ final <> [] /\
    fst (process_item E false categories download_path item w) = Ok tt /\
    fs (snd (process_item E false categories download_path item w))
      = <[final := File c]> (delete item (fs w)).
Proof.
  intros Hdeny Htable Hdirs Hc.
  destruct (classify_total categories sets
              (str_lower E (suffix_of_name (name item))) Htable) as [category Hclass].
  pose proof (classify_range _ _ _ Hclass) as Hrange.
  set (final := get_available_name (fs w) (download_path // category // name item)).
  assert (Hparent : parent final = download_path // category).
  { unfold final. rewrite get_available_name_parent. apply parent_div. }
  assert (Hfree : path_exists (fs w) final = false) by apply get_available_name_free.
  destruct (path_exists_false _ _ Hfree) as [Hnone Hfinal0].
  exists final, category. split; [done|].
  split; [done|]. split; [done|].
  assert (Hmove : shutil_move (deny E) (fs w) item final
                  = (Ok tt, <[final := File c]> (delete item (fs w)))).
  { unfold shutil_move, is_dir. rewrite Hnone. cbn [andb].
    unfold os_rename. rewrite Hc, Hnone, Hparent.
    specialize (Hdirs category Hrange). unfold is_dir in Hdirs.
    destruct (lookup_node (fs w) (download_path // category)) as [[|]|]; try done.
    by rewrite Hdeny. }
  unfold process_item, classify_name in *. unfold_monad.
  unfold is_file. rewrite Hc, Hclass. cbn [negb fs logs]. fold final.
  rewrite Hmove. by case_bool_decide.
Qed.


(** With nothing refused and the category folders in place, the pass moves
    every regular file out of the downloads folder. *)
Lemma pass_clears (E : env) (categories : pyval) (sets : string -> list string)
    (download_path : Path) (items : list Path) (w : world) :
  (forall src dst, deny E (OpRename src dst) = false) ->
  table_of categories sets ->
  (forall k, k ∈ priority ++ [fallback] ->
             is_dir (fs w) (download_path // k) = true) ->
  fst (for_each items (process_item E false categories download_path) w) = Ok tt /\
  (forall n, lookup_node (fs w) n = Some Dir ->
     lookup_node
       (fs (snd (for_each items (process_item E false categories download_path) w))) n
     = Some Dir) /\
  (forall q, parent q = download_path ->
     is_file
       (fs (snd (for_each items (process_item E false categories download_path) w))) q
     = true ->
     is_file (fs w) q = true /\ q ∉ items).
Proof.
  intros Hdeny Htable. revert w.
  induction items as [|item items IH]; intros w Hdirs.
  - cbn [for_each]. split; [done|]. split; [done|].
    intros q _ Hq. split; [done|]. by intros ?%elem_of_nil.
  - cbn [for_each]. unfold mbind, M_bind.
    destruct (lookup_node (fs w) item) as [[c|]|] eqn:Hitem.
    + destruct (process_item_moves E categories sets download_path item w c
                  Hdeny Htable Hdirs Hitem)
        as (final & category & Hparent & Hnone & Hfinal0 & Hok & Hfs).
      assert (Hitem0 : item <> []) by (intros ->; done).
      destruct (process_item E false categories download_path item w)
        as [[[]|e] w1]; cbn [fst snd] in *; [|done].
      assert (Hlook : forall q, lookup_node (fs w1) q =
                if decide (final = q) then Some (File c)
                else if decide (item = q) then None else lookup_node (fs w) q).
      { intros q. rewrite Hfs, lookup_node_insert by done.
        destruct (decide (final = q)); [done|]. by apply lookup_node_delete. }
      destruct (IH w1) as (Hok' & Hdir' & Hfiles').
      { intros k Hk. specialize (Hdirs k Hk). unfold is_dir in *.
        rewrite Hlook. repeat case_decide; subst; try done.
        - by rewrite Hnone in Hdirs.
        - by rewrite Hitem in Hdirs. }
      split; [done|]. split.
      * intros n Hn. apply Hdir'. rewrite Hlook.
        repeat case_decide; subst; congruence.
      * intros q Hq Hfile. destruct (Hfiles' q Hq Hfile) as [Hfile1 Hnotin].
        unfold is_file in Hfile1. rewrite Hlook in Hfile1.
        destruct (decide (final = q)) as [<-|_].
        { rewrite Hparent in Hq. by apply div_ne_self in Hq. }
        destruct (decide (item = q)) as [<-|Hne]; [done|].
        split; [done|]. intros [->|?]%elem_of_cons; done.
    + assert (Hstep : process_item E false categories download_path item w = (Ok tt, w)).
      { unfold process_item. unfold_monad. unfold is_file. by rewrite Hitem. }
      rewrite Hstep. destruct (IH w Hdirs) as (Hok' & Hdir' & Hfiles').
      split; [done|]. split; [done|].
      intros q Hq Hfile. destruct (Hfiles' q Hq Hfile) as [Hfile1 Hnotin].
      split; [done|]. intros [->|?]%elem_of_cons; [|done].
      unfold is_file in Hfile1. by rewrite Hitem in Hfile1.
    + assert (Hstep : process_item E false categories download_path item w = (Ok tt, w)).
      { unfold process_item. unfold_monad. unfold is_file. by rewrite Hitem. }
      rewrite Hstep. destruct (IH w Hdirs) as (Hok' & Hdir' & Hfiles').
      split; [done|]. split; [done|].
      intros q Hq Hfile. destruct (Hfiles' q Hq Hfile) as [Hfile1 Hnotin].
      split; [done|]. intros [->|?]%elem_of_cons; [|done].
      unfold is_file in Hfile1. by rewrite Hitem in Hfile1.
Qed.

(** X14.  Running twice: when no rename is refused, the downloads folder
    can be listed, the category table has the four keys with lists of
    strings and the five category folders exist, a pass returns normally
    and leaves no regular file directly in the downloads folder, and a
    second pass changes nothing and logs nothing. *)
Theorem second_pass_does_nothing (E : env) (categories : pyval)
    (sets : string -> list string) (download_path : Path) (w : world) :
  (forall src dst, deny E (OpRename src dst) = false) ->
  deny E (OpRead download_path) = false ->
  table_of categories sets ->
  is_dir (fs w) download_path = true ->
  (forall k, k ∈ priority ++ [fallback] ->
             is_dir (fs w) (download_path // k) = true) ->
  let w1 := snd (organize E false categories download_path w) in
  fst (organize E false categories download_path w) = Ok tt /\
  (forall q, parent q = download_path -> is_file (fs w1) q = false) /\
  organize E false categories download_path w1 = (Ok tt, w1).
Proof.
  intros Hdeny Hlist Htable Hdl Hdirs w1. subst w1.
  unfold is_dir in Hdl.
  destruct (lookup_node (fs w) download_path) as [[|]|] eqn:Hl; try done.
  assert (Hrun : organize E false categories download_path w =
                 for_each (children (fs w) download_path)
                   (process_item E false categories download_path) w).
  { unfold organize, iterdir, mbind, M_bind. by rewrite Hl, Hlist. }
  rewrite Hrun.
  destruct (pass_clears E categories sets download_path
              (children (fs w) download_path) w Hdeny Htable Hdirs)
    as (Hok & Hkeep & Hfiles).
  set (w1 := snd (for_each (children (fs w) download_path)
                    (process_item E false categories download_path) w)) in *.
  assert (Hclear : forall q, parent q = download_path -> is_file (fs w1) q = false).
  { intros q Hq. destruct (is_file (fs w1) q) eqn:Hfile; [|done].
    destruct (Hfiles q Hq Hfile) as [Hfile0 Hnotin]. exfalso. apply Hnotin.
    apply elem_of_children. unfold is_file, lookup_node in Hfile0.
    destruct q as [|x q]; [done|]. split; [done|]. split; [done|].
    destruct (fs w !! (x :: q)); [eauto | done]. }
  split; [done|]. split; [exact Hclear|].
  unfold organize, iterdir, mbind, M_bind.
  rewrite (Hkeep _ Hl), Hlist. apply for_each_skip.
  intros item Hitem. apply Hclear. apply elem_of_children in Hitem. tauto.
Qed.

Lemma second_pass_does_nothing_witness :
  (forall src dst, deny plain_env (OpRename src dst) = false) /\
  table_of default_categories default_sets /\
  (forall k, k ∈ priority ++ [fallback] ->
             is_dir (fs sorted_once) (downloads // k) = true) /\
  organize plain_env false default_categories downloads
    (snd (organize plain_env false default_categories downloads sorted_once))
  = (Ok tt, snd (organize plain_env false default_categories downloads sorted_once)) /\
  logs (snd (organize plain_env false default_categories downloads sorted_once))
    = [Moved "a.zip" "Archives"; Moved "b.JPG" "Graphics"].
Proof.
  assert (Hdirs : forall k, k ∈ priority ++ [fallback] ->
             is_dir (fs sorted_once) (downloads // k) = true).
  { intros k Hk. unfold priority, fallback in Hk. cbn [app] in Hk.
    repeat (apply elem_of_cons in Hk as [->|Hk]; [vm_compute; reflexivity|]).
    by apply elem_of_nil in Hk. }
  split; [reflexivity|]. split; [exact default_table|]. split; [exact Hdirs|].
  split; [|vm_compute; reflexivity].
  exact (proj2 (proj2 (second_pass_does_nothing plain_env default_categories
                  default_sets downloads sorted_once (fun _ _ => eq_refl) eq_refl
                  default_table eq_refl Hdirs))).
Defined.
